(** * AI4SD water-quality dashboards: the prediction and trend formulas

    The repository holds several near-duplicate dashboards.  Each one has a
    [predict] function (clamped affine formulas over the inlet readings) and
    a fourteen-point trend series.  This development embeds

    - [Capacity]  : src/ai4water_pwa_newdesign/src/App.jsx
                    (capacity-based life model, with risk and actions);
    - [Static]    : src/unnamed/part_005, and the textually identical
                    [predict] of the React page kept in
                    src/Bennyfilt_Pages_Ready/app/public/sw.js
                    (capacity-based, fixed media constants, no actions);
    - [Heur001], [Heur003], [Heur004] : src/unnamed/part_001, part_003 and
                    part_004 (heuristic life model); their numeric part is
                    the same text and lives in [HeurCore];
    - [riskLabel], [CapacityPage], [Page001], [Page003], [Page004] : the
                    label function and the values derived at the top of
                    [App()] in the four React pages (status pills, badge,
                    trend);
    - [Chart]     : [linePath], the path of [renderChart] and the numeric
                    part of [update()] in src/unnamed/part_005.

    Numbers.  A JavaScript number is modelled by [JS.num]: an exact rational,
    [+Infinity], [-Infinity] or [NaN].  Rounding of IEEE doubles, overflow of
    finite values and the sign of zero are idealised away (a division by zero
    takes its sign from the numerator alone); everything else ([NaN]
    propagation, [Math.min]/[Math.max], comparisons with [NaN]) follows the
    language. *)

From Stdlib Require Import QArith Qminmax Qabs Qround Lqa ZArith Lia.
From Stdlib Require Import List String Bool.
Import ListNotations.

Set Implicit Arguments.

(* ================================================================== *)
(** ** JavaScript numbers *)
(* ================================================================== *)

Module JS.

Inductive num : Type :=
| Fin (q : Q)
| PInf
| NInf
| NaN.

Declare Scope js_scope.
Delimit Scope js_scope with js.
Bind Scope js_scope with num.

Coercion Fin : Q >-> num.

Definition nneg (x : num) : num :=
  match x with
  | Fin a => Fin (- a)
  | PInf => NInf
  | NInf => PInf
  | NaN => NaN
  end.

Definition nadd (x y : num) : num :=
  match x, y with
  | NaN, _ | _, NaN => NaN
  | Fin a, Fin b => Fin (a + b)
  | PInf, NInf | NInf, PInf => NaN
  | PInf, _ | _, PInf => PInf
  | NInf, _ | _, NInf => NInf
  end.

Definition nsub (x y : num) : num := nadd x (nneg y).

(** An infinity scaled by a finite factor: the factor's sign decides, and
    [Infinity * 0] is [NaN]. *)
Definition scale_inf (pos : bool) (a : Q) : num :=
  match Qnum a with
  | Z0 => NaN
  | Zpos _ => if pos then PInf else NInf
  | Zneg _ => if pos then NInf else PInf
  end.

Definition nmul (x y : num) : num :=
  match x, y with
  | NaN, _ | _, NaN => NaN
  | Fin a, Fin b => Fin (a * b)
  | PInf, Fin a | Fin a, PInf => scale_inf true a
  | NInf, Fin a | Fin a, NInf => scale_inf false a
  | PInf, PInf | NInf, NInf => PInf
  | PInf, NInf | NInf, PInf => NInf
  end.

Definition ndiv (x y : num) : num :=
  match x, y with
  | NaN, _ | _, NaN => NaN
  | Fin a, Fin b =>
      match Qnum b with
      | Z0 => scale_inf true a          (* x/0: NaN, +Infinity or -Infinity *)
      | _ => Fin (a / b)
      end
  | Fin _, (PInf | NInf) => Fin 0
  | PInf, Fin b => match Qnum b with Zneg _ => NInf | _ => PInf end
  | NInf, Fin b => match Qnum b with Zneg _ => PInf | _ => NInf end
  | (PInf | NInf), (PInf | NInf) => NaN
  end.

(** [Math.max] and [Math.min]: [NaN] as soon as one argument is [NaN]. *)
Definition nmax (x y : num) : num :=
  match x, y with
  | NaN, _ | _, NaN => NaN
  | PInf, _ | _, PInf => PInf
  | NInf, z | z, NInf => z
  | Fin a, Fin b => Fin (Qmax a b)
  end.

Definition nmin (x y : num) : num :=
  match x, y with
  | NaN, _ | _, NaN => NaN
  | NInf, _ | _, NInf => NInf
  | PInf, z | z, PInf => z
  | Fin a, Fin b => Fin (Qmin a b)
  end.

(** [Math.abs]. *)
Definition nabs (x : num) : num :=
  match x with
  | Fin a => Fin (Qabs a)
  | PInf | NInf => PInf
  | NaN => NaN
  end.

(** [Math.round]: the nearest integer, halves going up. *)
Definition nround (x : num) : num :=
  match x with
  | Fin a => Fin (inject_Z (Qfloor (a + (1 # 2))))
  | _ => x
  end.

(** Comparisons; each one is [false] when an argument is [NaN]. *)
Definition nle (x y : num) : bool :=
  match x, y with
  | NaN, _ | _, NaN => false
  | NInf, _ | _, PInf => true
  | Fin a, Fin b => Qle_bool a b
  | _, _ => false
  end.

Definition nlt (x y : num) : bool :=
  match x, y with
  | NaN, _ | _, NaN => false
  | Fin a, Fin b => negb (Qle_bool b a)
  | PInf, _ | _, NInf => false
  | _, _ => true
  end.

Definition nge (x y : num) : bool := nle y x.
Definition ngt (x y : num) : bool := nlt y x.

(** [Number.isFinite]. *)
Definition isFinite (x : num) : bool :=
  match x with Fin _ => true | _ => false end.

(** Same value ([===] on numbers: [NaN] equals nothing). *)
Definition num_eq (x y : num) : Prop :=
  match x, y with
  | Fin a, Fin b => a == b
  | PInf, PInf | NInf, NInf => True
  | _, _ => False
  end.

(** [x <= y] as a proposition. *)
Definition num_le (x y : num) : Prop := nle x y = true.

Infix "+" := nadd : js_scope.
Infix "-" := nsub : js_scope.
Infix "*" := nmul : js_scope.
Infix "/" := ndiv : js_scope.
Infix "<=?" := nle (at level 70, no associativity) : js_scope.
Infix "<?" := nlt (at level 70, no associativity) : js_scope.
Infix ">=?" := nge (at level 70, no associativity) : js_scope.
Infix ">?" := ngt (at level 70, no associativity) : js_scope.

(** [const clamp = (x, a, b) => Math.min(b, Math.max(a, x));] -- the same
    line in every variant. *)
Definition clamp (x a b : num) : num := nmin b (nmax a x).

(** [Array.from({length: n}, (_, i) => f i)]: indices [0 .. n-1] in order,
    each handed to [f] as a number. *)
Definition array_from {A : Type} (n : nat) (f : num -> A) : list A :=
  map (fun i : nat => f (Fin (inject_Z (Z.of_nat i)))) (seq 0 n).

(** [arr.push(x)]: the array with [x] appended.  The arrays of this code
    are local to one call, so the updated array is threaded explicitly. *)
Definition push {A : Type} (arr : list A) (x : A) : list A := arr ++ [x].

End JS.

Import JS.

Open Scope Q_scope.
Open Scope js_scope.

(* ================================================================== *)
(** ** part_005 (and the React page of Bennyfilt_Pages_Ready):
       capacity-based model with fixed media constants *)
(* ================================================================== *)

Module Static.

Definition MEDIA_MASS_G : num := 3000.
Definition CAPACITY_MG_G : num := 6.

Record Prediction : Type := {
  pbRemovalPct : num;
  asRemovalPct : num;
  pbOut : num;
  asOut : num;
  days : num;
  totalTreatable_L : num;
  foulingFactor : num;
  removed_mg_day : num;
  totalCapacity_mg : num
}.

(** [function predict(pb, as, turbidity, flow_L_day)]: one definition per
    [const] of the body.  A local whose name is also a field of the result
    carries a trailing underscore. *)
Section predict.
Variables (pb as_ turbidity flow_L_day : num).

Definition turbPenalty : num := clamp ((turbidity - 50) / 1200) 0 0.40.
Definition pbRemoval : num := clamp (0.95 - turbPenalty) 0.60 0.98.
Definition asRemoval : num := clamp (0.90 - turbPenalty) 0.55 0.97.

Definition pbOut_ : num := pb * (1 - pbRemoval).
Definition asOut_ : num := as_ * (1 - asRemoval).

Definition foulingFactor_ : num :=
  clamp (1 - 0.60 * clamp (turbidity / 1000) 0 1.5) 0.35 1.0.
Definition totalCapacity_mg_ : num :=
  nmax 0 (MEDIA_MASS_G * CAPACITY_MG_G * foulingFactor_).

Definition pb_removed_mg_day : num := (pb * flow_L_day) * pbRemoval.
Definition as_removed_mg_day : num := (as_ * flow_L_day) * asRemoval.
Definition removed_mg_day_ : num :=
  nmax 1e-9 (pb_removed_mg_day + as_removed_mg_day).

Definition days_ : num := clamp (totalCapacity_mg_ / removed_mg_day_) 0 365.
Definition totalTreatable_L_ : num := days_ * flow_L_day.

Definition predict : Prediction :=
  {| pbRemovalPct := pbRemoval * 100;
     asRemovalPct := asRemoval * 100;
     pbOut := pbOut_;
     asOut := asOut_;
     days := days_;
     totalTreatable_L := totalTreatable_L_;
     foulingFactor := foulingFactor_;
     removed_mg_day := removed_mg_day_;
     totalCapacity_mg := totalCapacity_mg_ |}.
End predict.

Record TrendPoint : Type := {
  day : num;
  treated : num;
  remaining : num
}.

(** The trend series built inside [update()] (part_005) and inside the
    [useMemo] of the React page; [out] is the result of [predict] and
    [flow] the daily flow read from the form. *)
Definition trend (out : Prediction) (flow : num) : list TrendPoint :=
  let pts : num := 14 in
  let days := nmax (days out) 1e-6 in
  let totalL := totalTreatable_L out in
  array_from 14 (fun i =>
    let day := i + 1 in
    let treated := nmin totalL (day * flow) in
    let remaining := nmax 0 (1 - day / pts) * 100 in
    {| day := day; treated := treated; remaining := remaining |}).

End Static.

(* ================================================================== *)
(** ** Recommendation records (every variant with an [actions] list) *)
(* ================================================================== *)

Record Action : Type := {
  kind : string;
  title : string;
  detail : string
}.

Record Limits : Type := { limit_pb : num; limit_as : num }.

Record Compliance : Type := { pbPass : bool; asPass : bool }.

(* ================================================================== *)
(** ** ai4water_pwa_newdesign/src/App.jsx: capacity-based model *)
(* ================================================================== *)

Module Capacity.

Record Prediction : Type := {
  pbRemovalPct : num;
  asRemovalPct : num;
  pbOut : num;
  asOut : num;
  risk : num;
  rulDays : num;
  totalTreatable_L : num;
  totalCapacity_mg : num;
  total_removed_mg_day : num;
  foulingFactor : num;
  limits : Limits;
  compliance : Compliance;
  actions : list Action
}.

(** [function predict({ pb, as, ph, turbidity, flow_L_day, mediaMass_g,
    capacity_mg_g })].  A [let] that is assigned twice becomes two
    definitions (the first one ends in [0]); the [actions] array is threaded
    through the four [if] statements as [actions0 .. actions4]. *)
Section predict.
Variables (pb as_ ph turbidity flow_L_day mediaMass_g capacity_mg_g : num).

Definition turbPenalty : num := clamp ((turbidity - 50) / 1200) 0 0.30.
Definition phPenalty : num := clamp (nabs (ph - 7.5) / 5.0) 0 0.20.
Definition load : num := pb + as_.
Definition loadPenalty : num := clamp (load / 10.0) 0 0.12.

Definition pbRemoval0 : num := 0.95 - turbPenalty - phPenalty - loadPenalty.
Definition asRemoval0 : num := 0.90 - turbPenalty - phPenalty - loadPenalty.

Definition pbRemoval : num := clamp pbRemoval0 0.55 0.98.
Definition asRemoval : num := clamp asRemoval0 0.50 0.97.

Definition pbOut_ : num := pb * (1 - pbRemoval).
Definition asOut_ : num := as_ * (1 - asRemoval).

Definition limits_ : Limits := {| limit_pb := 0.01; limit_as := 0.01 |}.
Definition pbPass_ : bool := pbOut_ <=? limit_pb limits_.
Definition asPass_ : bool := asOut_ <=? limit_as limits_.

Definition foulingFactor_ : num :=
  clamp (1.0 - 0.60 * clamp (turbidity / 1000) 0 1.5) 0.35 1.0.

Definition totalCapacity_mg_ : num :=
  nmax 0 (mediaMass_g * capacity_mg_g * foulingFactor_).

Definition pb_in_mg_day : num := nmax 0 (pb * flow_L_day).
Definition as_in_mg_day : num := nmax 0 (as_ * flow_L_day).

Definition pb_removed_mg_day : num := pb_in_mg_day * pbRemoval.
Definition as_removed_mg_day : num := as_in_mg_day * asRemoval.

Definition total_removed_mg_day_ : num :=
  nmax 1e-9 (pb_removed_mg_day + as_removed_mg_day).

Definition rulDays_ : num :=
  clamp (totalCapacity_mg_ / total_removed_mg_day_) 0 365.
Definition totalTreatable_L_ : num := rulDays_ * flow_L_day.

Definition risk0 : num :=
  0.10 +
  clamp ((turbidity - 200) / 1200) 0 0.45 +
  clamp (load / 12.0) 0 0.25 +
  clamp (nabs (ph - 7.5) / 7.5) 0 0.15 +
  clamp (flow_L_day / 8000) 0 0.15.
Definition risk_ : num := clamp risk0 0.05 0.95.

Definition actions0 : list Action := [].

Definition actions1 : list Action :=
  if turbidity >=? 900 then
    push actions0
      {| kind := "bad";
         title := "Very high turbidity influent";
         detail := "Prioritize coagulation–clarification and reduce flow to protect adsorption media from rapid fouling." |}
  else if turbidity >=? 300 then
    push actions0
      {| kind := "warn";
         title := "High turbidity influent";
         detail := "Optimize pre-treatment and monitor headloss; schedule more frequent cleaning/backwash." |}
  else
    push actions0
      {| kind := "ok";
         title := "Turbidity manageable";
         detail := "Influent turbidity is within a range that is easier to manage operationally." |}.

Definition actions2 : list Action :=
  if (ph <? 5.0) || (ph >? 9.0) then
    push actions1
      {| kind := "bad";
         title := "pH outside expected influent range";
         detail := "Consider pH conditioning; adsorption/speciation may deviate strongly outside typical ranges." |}
  else if (ph <? 6.5) || (ph >? 8.5) then
    push actions1
      {| kind := "warn";
         title := "pH outside drinking-water target";
         detail := "Water may be treatable but requires pH adjustment to meet potable guidelines." |}
  else
    push actions1
      {| kind := "ok";
         title := "pH within drinking-water target";
         detail := "pH is within typical potable guideline range (6.5–8.5)." |}.

Definition actions3 : list Action :=
  if negb pbPass_ || negb asPass_ then
    push actions2
      {| kind := "bad";
         title := "Predicted guideline exceedance";
         detail := "Increase contact time (reduce flow), add polishing stage, or refresh adsorption media; verify with lab testing." |}
  else
    push actions2
      {| kind := "ok";
         title := "Predicted within Pb/As limits";
         detail := "Predicted effluent meets the displayed limits under current inputs." |}.

Definition actions4 : list Action :=
  if risk_ >=? 0.66 then
    push actions3
      {| kind := "bad";
         title := "Operational risk high";
         detail := "Plan early media replacement and increase Pb/As sampling frequency." |}
  else if risk_ >=? 0.33 then
    push actions3
      {| kind := "warn";
         title := "Operational risk moderate";
         detail := "Monitor closely; schedule periodic lab verification and track throughput." |}
  else
    push actions3
      {| kind := "ok";
         title := "Operational risk low";
         detail := "Operation appears stable; continue routine monitoring and logging." |}.

Definition predict : Prediction :=
  {| pbRemovalPct := pbRemoval * 100;
     asRemovalPct := asRemoval * 100;
     pbOut := pbOut_;
     asOut := asOut_;
     risk := risk_;
     rulDays := rulDays_;
     totalTreatable_L := totalTreatable_L_;
     totalCapacity_mg := totalCapacity_mg_;
     total_removed_mg_day := total_removed_mg_day_;
     foulingFactor := foulingFactor_;
     limits := limits_;
     compliance := {| pbPass := pbPass_; asPass := asPass_ |};
     actions := actions4 |}.
End predict.

Record TrendPoint : Type := {
  day : num;
  treated : num;
  remaining : num
}.

(** [function makeTrend(rulDays, flow_L_day, totalTreatable_L)]. *)
Definition makeTrend (rulDays flow_L_day totalTreatable_L : num)
  : list TrendPoint :=
  let points : num := 14 in
  let safeDays := nmax rulDays 1e-6 in
  array_from 14 (fun i =>
    let day := i + 1 in
    let frac := day / points in
    let remainingDays := nmax 0 (safeDays * (1 - frac)) in
    let treated := nmin totalTreatable_L (day * flow_L_day) in
    let pctRemaining := clamp ((remainingDays / safeDays) * 100) 0 100 in
    {| day := day; treated := treated; remaining := pctRemaining |}).

End Capacity.

(* ================================================================== *)
(** ** part_001, part_003, part_004: heuristic model *)
(* ================================================================== *)

(** The numeric lines of [predict({ pb, as, ph, turbidity })] and the whole
    of [makeTrend(rulDays)] are the same text in part_001, part_003 and
    part_004; they are embedded once here.  The three files differ in the
    recommendation checks, embedded per file below. *)
Module HeurCore.

Record Prediction : Type := {
  pbRemovalPct : num;
  asRemovalPct : num;
  pbOut : num;
  asOut : num;
  risk : num;
  rulDays : num;
  limits : Limits;
  compliance : Compliance;
  actions : list Action
}.

Section predict.
Variables (pb as_ ph turbidity : num).

Definition turbPenalty : num := clamp ((turbidity - 50) / 1200) 0 0.30.
Definition phPenalty : num := clamp (nabs (ph - 7.5) / 5.0) 0 0.20.
Definition load : num := pb + as_.
Definition loadPenalty : num := clamp (load / 10.0) 0 0.12.

Definition pbRemoval0 : num := 0.95 - turbPenalty - phPenalty - loadPenalty.
Definition asRemoval0 : num := 0.90 - turbPenalty - phPenalty - loadPenalty.

Definition pbRemoval : num := clamp pbRemoval0 0.60 0.98.
Definition asRemoval : num := clamp asRemoval0 0.55 0.97.

Definition pbOut_ : num := pb * (1 - pbRemoval).
Definition asOut_ : num := as_ * (1 - asRemoval).

Definition risk0 : num :=
  0.12 +
  clamp ((turbidity - 200) / 1200) 0 0.45 +
  clamp (load / 12.0) 0 0.35 +
  clamp (nabs (ph - 7.5) / 7.5) 0 0.20.
Definition risk_ : num := clamp risk0 0.05 0.95.

Definition limits_ : Limits := {| limit_pb := 0.01; limit_as := 0.01 |}.

Definition pbPass_ : bool := pbOut_ <=? limit_pb limits_.
Definition asPass_ : bool := asOut_ <=? limit_as limits_.

Definition stress : num :=
  0.45 * clamp (turbidity / 1200) 0 1 +
  0.35 * clamp (load / 12.0) 0 1 +
  0.20 * clamp (nabs (ph - 7.5) / 7.5) 0 1.
Definition rulDays_ : num := nround (clamp (30 - 24 * stress) 3 30).

(** The [return { ... }] of [predict], given the finished [actions]. *)
Definition result (actions : list Action) : Prediction :=
  {| pbRemovalPct := pbRemoval * 100;
     asRemovalPct := asRemoval * 100;
     pbOut := pbOut_;
     asOut := asOut_;
     risk := risk_;
     rulDays := rulDays_;
     limits := limits_;
     compliance := {| pbPass := pbPass_; asPass := asPass_ |};
     actions := actions |}.
End predict.

Record TrendPoint : Type := {
  day : num;
  capacity : num;
  breakthrough : num
}.

(** [function makeTrend(rulDays)]. *)
Definition makeTrend (rulDays : num) : list TrendPoint :=
  let points : num := 14 in
  array_from 14 (fun i =>
    let day := i + 1 in
    let frac := day / points in
    let capacity := clamp (100 - (100 * day) / (rulDays * 0.55)) 8 100 in
    let breakthrough :=
      clamp (0.15 + frac * (1.0 - capacity / 100)) 0.05 0.95 * 100 in
    {| day := day; capacity := capacity; breakthrough := breakthrough |}).

End HeurCore.

(** [predict] of src/unnamed/part_001: the numeric lines are those of
    [HeurCore]; the [actions] array is threaded through the four [if]
    statements as [actions0 .. actions4]. *)
Module Heur001.

Section predict.
Variables (pb as_ ph turbidity : num).

Definition actions0 : list Action := [].

Definition actions1 : list Action :=
  if turbidity >=? 900 then
    push actions0
      {| kind := "bad";
         title := "Turbidity very high";
         detail := "Strengthen coagulation/clarification or reduce flow to prevent clogging and loss of adsorption capacity." |}
  else if turbidity >=? 300 then
    push actions0
      {| kind := "warn";
         title := "Turbidity elevated";
         detail := "Use conservative operating conditions and clean/backwash pre-filtration stages more frequently." |}
  else
    push actions0
      {| kind := "ok";
         title := "Turbidity controlled";
         detail := "Filtration performance should remain stable under current conditions." |}.

Definition actions2 : list Action :=
  if (ph <? 6.5) || (ph >? 8.5) then
    push actions1
      {| kind := "warn";
         title := "pH outside drinking-water range";
         detail := "Consider pH conditioning; adsorption/speciation can change at extreme pH." |}
  else
    push actions1
      {| kind := "ok";
         title := "pH within drinking-water range";
         detail := "pH supports stable operation for metal removal." |}.

Definition actions3 : list Action :=
  if negb (HeurCore.pbPass_ pb as_ ph turbidity) ||
     negb (HeurCore.asPass_ pb as_ ph turbidity) then
    push actions2
      {| kind := "bad";
         title := "Guideline exceedance risk";
         detail := "Increase contact time, add polishing stage, or replace/refresh adsorption media; confirm with Pb/As testing." |}
  else
    push actions2
      {| kind := "ok";
         title := "Within guideline limits";
         detail := "Continue operation and log data for performance tracking." |}.

Definition actions4 : list Action :=
  if HeurCore.risk_ pb as_ ph turbidity >=? 0.66 then
    push actions3
      {| kind := "bad";
         title := "Breakthrough risk high";
         detail := "Plan earlier media replacement and increase Pb/As sampling frequency." |}
  else if HeurCore.risk_ pb as_ ph turbidity >=? 0.33 then
    push actions3
      {| kind := "warn";
         title := "Breakthrough risk moderate";
         detail := "Monitor effluent closely and schedule periodic lab verification." |}
  else
    push actions3
      {| kind := "ok";
         title := "Breakthrough risk low";
         detail := "Operation appears stable; continue routine monitoring." |}.

Definition predict : HeurCore.Prediction :=
  HeurCore.result pb as_ ph turbidity actions4.
End predict.

Definition makeTrend : num -> list HeurCore.TrendPoint := HeurCore.makeTrend.

End Heur001.

(** [predict] of src/unnamed/part_003: the numeric lines are those of
    [HeurCore]; the [actions] array is threaded through the four [if]
    statements as [actions0 .. actions4]. *)
Module Heur003.

Section predict.
Variables (pb as_ ph turbidity : num).

Definition actions0 : list Action := [].

Definition actions1 : list Action :=
  if turbidity >? 10 then
    push actions0
      {| kind := "bad";
         title := "Turbidity exceeds drinking-water target";
         detail := "Improve pre-treatment (coagulation/clarification) to reduce turbidity before final filtration." |}
  else if turbidity >? 5 then
    push actions0
      {| kind := "warn";
         title := "Turbidity above preferred range";
         detail := "Operate conservatively and monitor turbidity closely; optimize pre-treatment if possible." |}
  else
    push actions0
      {| kind := "ok";
         title := "Turbidity within drinking-water target";
         detail := "Turbidity is within recommended range for potable water." |}.

Definition actions2 : list Action :=
  if (ph <? 6.5) || (ph >? 8.5) then
    push actions1
      {| kind := "warn";
         title := "pH outside drinking-water range";
         detail := "Consider pH adjustment; metal speciation and adsorption performance may change at extreme pH." |}
  else
    push actions1
      {| kind := "ok";
         title := "pH within drinking-water range";
         detail := "pH is within the typical guideline range for potable water." |}.

Definition actions3 : list Action :=
  if negb (HeurCore.pbPass_ pb as_ ph turbidity) ||
     negb (HeurCore.asPass_ pb as_ ph turbidity) then
    push actions2
      {| kind := "bad";
         title := "Guideline exceedance risk";
         detail := "Increase contact time, add polishing stage, or refresh adsorption media; confirm with Pb/As testing." |}
  else
    push actions2
      {| kind := "ok";
         title := "Within Pb/As guideline limits";
         detail := "Predicted effluent meets guideline limits under current inputs." |}.

Definition actions4 : list Action :=
  if HeurCore.risk_ pb as_ ph turbidity >=? 0.66 then
    push actions3
      {| kind := "bad";
         title := "Operational risk high";
         detail := "Media likely approaching saturation; increase sampling frequency and plan replacement." |}
  else if HeurCore.risk_ pb as_ ph turbidity >=? 0.33 then
    push actions3
      {| kind := "warn";
         title := "Operational risk moderate";
         detail := "Monitor performance; schedule periodic lab verification." |}
  else
    push actions3
      {| kind := "ok";
         title := "Operational risk low";
         detail := "Operation appears stable; continue routine monitoring." |}.

Definition predict : HeurCore.Prediction :=
  HeurCore.result pb as_ ph turbidity actions4.
End predict.

Definition makeTrend : num -> list HeurCore.TrendPoint := HeurCore.makeTrend.

End Heur003.

(** [predict] of src/unnamed/part_004: the numeric lines are those of
    [HeurCore]; the [actions] array is threaded through the four [if]
    statements as [actions0 .. actions4]. *)
Module Heur004.

Section predict.
Variables (pb as_ ph turbidity : num).

Definition actions0 : list Action := [].

Definition actions1 : list Action :=
  if turbidity >=? 900 then
    push actions0
      {| kind := "bad";
         title := "Very high turbidity";
         detail := "Strengthen coagulation–clarification or reduce flow to prevent clogging and loss of adsorption capacity." |}
  else if turbidity >=? 300 then
    push actions0
      {| kind := "warn";
         title := "Elevated turbidity";
         detail := "Use conservative operating conditions; clean/backwash pre-filtration stages more frequently." |}
  else
    push actions0
      {| kind := "ok";
         title := "Turbidity manageable";
         detail := "Filtration performance should remain stable under current conditions." |}.

Definition actions2 : list Action :=
  if (ph <? 6.0) || (ph >? 9.0) then
    push actions1
      {| kind := "warn";
         title := "pH outside preferred range";
         detail := "Consider pH conditioning; adsorption/speciation can change at extreme pH." |}
  else
    push actions1
      {| kind := "ok";
         title := "pH acceptable";
         detail := "pH supports stable operation for many adsorption media." |}.

Definition actions3 : list Action :=
  if negb (HeurCore.pbPass_ pb as_ ph turbidity) ||
     negb (HeurCore.asPass_ pb as_ ph turbidity) then
    push actions2
      {| kind := "bad";
         title := "Predicted non-compliance";
         detail := "Increase contact time, add polishing stage, or replace/refresh adsorption media. Confirm with lab tests." |}
  else
    push actions2
      {| kind := "ok";
         title := "Predicted compliance";
         detail := "Continue operation and record data to improve the model." |}.

Definition actions4 : list Action :=
  if HeurCore.risk_ pb as_ ph turbidity >=? 0.66 then
    push actions3
      {| kind := "bad";
         title := "Breakthrough risk high";
         detail := "Plan earlier media replacement and increase Pb/As sampling frequency." |}
  else if HeurCore.risk_ pb as_ ph turbidity >=? 0.33 then
    push actions3
      {| kind := "warn";
         title := "Breakthrough risk moderate";
         detail := "Monitor effluent closely; schedule periodic lab verification." |}
  else
    push actions3
      {| kind := "ok";
         title := "Breakthrough risk low";
         detail := "Operation appears stable; keep logging inputs and outputs." |}.

Definition predict : HeurCore.Prediction :=
  HeurCore.result pb as_ ph turbidity actions4.
End predict.

Definition makeTrend : num -> list HeurCore.TrendPoint := HeurCore.makeTrend.

End Heur004.

(* ================================================================== *)
(** ** The React pages around [predict]: labels and status pills *)
(* ================================================================== *)

Record Label : Type := { level : string; text : string }.

(** [function riskLabel(r)]: the same text in App.jsx, part_001, part_003
    and part_004. *)
Definition riskLabel (r : num) : Label :=
  if r <? 0.33 then {| level := "ok"; text := "Low" |}
  else if r <? 0.66 then {| level := "warn"; text := "Moderate" |}
  else {| level := "bad"; text := "High" |}.

(** The values derived at the top of [App()] in App.jsx; [useMemo] caches
    a pure computation, so [outputs] and [trend] are the calls themselves. *)
Module CapacityPage.
Section App.
Variables (pb as_ ph turbidity flow_L_day mediaMass_g capacity_mg_g : num).

Definition outputs : Capacity.Prediction :=
  Capacity.predict pb as_ ph turbidity flow_L_day mediaMass_g capacity_mg_g.

Definition risk : Label := riskLabel (Capacity.risk outputs).
Definition complianceStatus : string :=
  if pbPass (Capacity.compliance outputs) &&
     asPass (Capacity.compliance outputs) then "ok" else "bad".

Definition trend : list Capacity.TrendPoint :=
  Capacity.makeTrend (Capacity.rulDays outputs) flow_L_day
    (Capacity.totalTreatable_L outputs).

Definition turbDrink : string :=
  if turbidity <=? 5 then "ok" else if turbidity <=? 10 then "warn" else "bad".
Definition phDrink : string :=
  if (ph >=? 6.5) && (ph <=? 8.5) then "ok" else "warn".
End App.
End CapacityPage.

(** The same values in part_001. *)
Module Page001.
Section App.
Variables (pb as_ ph turbidity : num).

Definition outputs : HeurCore.Prediction := Heur001.predict pb as_ ph turbidity.
Definition trend : list HeurCore.TrendPoint :=
  Heur001.makeTrend (HeurCore.rulDays outputs).

Definition turbStatus : string :=
  if turbidity <=? 5 then "ok" else if turbidity <=? 10 then "warn" else "bad".
Definition phStatus : string :=
  if (ph >=? 6.5) && (ph <=? 8.5) then "ok" else "warn".
Definition complianceStatus : string :=
  if pbPass (HeurCore.compliance outputs) &&
     asPass (HeurCore.compliance outputs) then "ok" else "bad".
Definition risk : Label := riskLabel (HeurCore.risk outputs).
End App.
End Page001.

(** The same values in part_003. *)
Module Page003.
Section App.
Variables (pb as_ ph turbidity : num).

Definition outputs : HeurCore.Prediction := Heur003.predict pb as_ ph turbidity.
Definition trend : list HeurCore.TrendPoint :=
  Heur003.makeTrend (HeurCore.rulDays outputs).

Definition turbStatus : string :=
  if turbidity <=? 5 then "ok" else if turbidity <=? 10 then "warn" else "bad".
Definition phStatus : string :=
  if (ph >=? 6.5) && (ph <=? 8.5) then "ok" else "warn".
Definition complianceStatus : string :=
  if pbPass (HeurCore.compliance outputs) &&
     asPass (HeurCore.compliance outputs) then "ok" else "bad".
Definition risk : Label := riskLabel (HeurCore.risk outputs).
End App.
End Page003.

(** The same values in part_004. *)
Module Page004.
Section App.
Variables (pb as_ ph turbidity : num).

Definition outputs : HeurCore.Prediction := Heur004.predict pb as_ ph turbidity.
Definition trend : list HeurCore.TrendPoint :=
  Heur004.makeTrend (HeurCore.rulDays outputs).

Definition turbStatus : string :=
  if turbidity <? 300 then "ok" else if turbidity <? 900 then "warn" else "bad".
Definition phStatus : string :=
  if (ph <? 6.0) || (ph >? 9.0) then "warn" else "ok".
Definition complianceStatus : string :=
  if pbPass (HeurCore.compliance outputs) &&
     asPass (HeurCore.compliance outputs) then "ok" else "bad".
Definition risk : Label := riskLabel (HeurCore.risk outputs).
End App.
End Page004.

(* ================================================================== *)
(** ** part_005: the chart path *)
(* ================================================================== *)

Module Chart.

(** Truthiness of a number: everything but [0] and [NaN]. *)
Definition truthy (x : num) : bool :=
  match x with
  | Fin q => negb (Qeq_bool q 0)
  | PInf | NInf => true
  | NaN => false
  end.

(** [a || b] on numbers. *)
Definition or_else (a b : num) : num := if truthy a then a else b.

(** [Math.min(...xs)] and [Math.max(...xs)]: [Infinity] and [-Infinity]
    when there is no argument. *)
Definition min_of (xs : list num) : num := fold_left nmin xs PInf.
Definition max_of (xs : list num) : num := fold_left nmax xs NInf.

(** [p[key]] on a trend point, read as a number: a key the point does not
    have gives [undefined], which arithmetic and [Math.min] turn into
    [NaN]. *)
Definition prop (p : Static.TrendPoint) (key : string) : num :=
  if (key =? "day")%string then Static.day p
  else if (key =? "treated")%string then Static.treated p
  else if (key =? "remaining")%string then Static.remaining p
  else NaN.

(** One chunk of the path text: [M x y] or [ L x y].  The text [d] is kept
    as the list of its chunks; printing the numbers is not modelled. *)
Inductive Cmd : Type :=
| MoveTo (x y : num)
| LineTo (x y : num).

(** [function linePath(data, xKey, yKey, w, h, pad=18, yMin=null,
    yMax=null)]; [null] is [None]. *)
Section linePath.
Variables (data : list Static.TrendPoint) (xKey yKey : string).
Variables (w h pad : num) (yMin yMax : option num).

Definition xs : list num := map (fun d => prop d xKey) data.
Definition ys : list num := map (fun d => prop d yKey) data.
Definition xmin : num := min_of xs.
Definition xmax : num := max_of xs.
Definition ymin : num := match yMin with Some v => v | None => min_of ys end.
Definition ymax : num := match yMax with Some v => v | None => max_of ys end.

Definition X (x : num) : num :=
  pad + ((x - xmin) / or_else (xmax - xmin) 1) * (w - 2 * pad).
Definition Y (y : num) : num :=
  h - pad - ((y - ymin) / or_else (ymax - ymin) 1) * (h - 2 * pad).

(** [data.forEach((p, i) => { ... d += ... })], from index [i] on. *)
Fixpoint forEach_from (ps : list Static.TrendPoint) (i : nat)
  (d : list Cmd) : list Cmd :=
  match ps with
  | [] => d
  | p :: rest =>
      let x := X (prop p xKey) in
      let y := Y (prop p yKey) in
      forEach_from rest (S i)
        (d ++ [if Nat.eqb i 0 then MoveTo x y else LineTo x y])
  end.

Definition linePath : list Cmd := forEach_from data 0 [].
End linePath.


(** The numeric part of [update()]: prediction, trend and the two paths
    handed to the charts. *)
Section update.
Variables (pb as_ turb flow : num).

Definition out : Static.Prediction := Static.predict pb as_ turb flow.
Definition trend : list Static.TrendPoint := Static.trend out flow.
End update.

End Chart.

Close Scope js_scope.

(* ================================================================== *)
(** ** Vocabulary of the statements *)
(* ================================================================== *)

(** The rational carried by a finite number. *)
Definition toQ (x : num) : Q :=
  match x with Fin q => q | _ => 0 end.

(** The bounds, read on a prediction: [lead] and [arsenic] are the removal
    fractions behind the two returned percentages, inside [[plo, phi]] and
    [[alo, ahi]]. *)
Definition removal_within (pbPct asPct : num) (plo phi alo ahi : Q) : Prop :=
  exists lead arsenic : Q,
    pbPct = Fin (lead * 100) /\ asPct = Fin (arsenic * 100) /\
    plo <= lead <= phi /\ alo <= arsenic <= ahi.

(** What C10 says of one risk computation: [pre] is the sum before the
    final clamp, [base] the baseline offset. *)
Definition risk_floor_idle (risk0 risk : num) (base : Q) : Prop :=
  exists pre : Q,
    risk0 = Fin pre /\ base <= pre /\ 0.05 <= pre /\
    num_eq risk (Fin (Qmin 0.95 pre)) /\
    num_le (Fin base) risk.



(** The day indices of a trend, as numbers. *)
Definition days_1_14 : list num :=
  map Fin [1; 2; 3; 4; 5; 6; 7; 8; 9; 10; 11; 12; 13; 14].

(** Each element is below the next one. *)
Fixpoint increasing (l : list num) : bool :=
  match l with
  | x :: (y :: _) as tl => nlt x y && increasing tl
  | _ => true
  end.

(** The spec's words for the remaining percentage: a linear decay from
    100% down to 0% over [span] days, clamped to [0, 100]. *)
Definition spec_linear_decay (span day : Q) : Q :=
  Qmin 100 (Qmax 0 (100 - 100 * day / span)).

(** What the heuristic pages compute: the decay over [span] days is
    floored at 8%; a zero span is a division by zero, which the clamp turns
    into the floor. *)
Definition floored_decay (span day : Q) : Q :=
  if Qeq_bool span 0 then 8
  else Qmin 100 (Qmax 8 (100 - 100 * day / span)).

(** A trend point whose day index is [d] and whose percentage is
    [shape d], inside [[lo, 100]]. *)
Definition trend_point_ok (day value : num) (lo : Q) (shape : Q -> Q) : Prop :=
  exists d v : Q,
    day = Fin d /\ value = Fin v /\ lo <= v <= 100 /\ v == shape d.

(** The three severity tags. *)
Definition is_severity (k : string) : bool :=
  (k =? "ok")%string || (k =? "warn")%string || (k =? "bad")%string.

(** The four checks ran in order and each pushed exactly one record:
    [a1 .. a4] are the array after the turbidity, pH, compliance and risk
    check. *)
Definition four_pushes (a1 a2 a3 a4 : list Action) : Prop :=
  exists r1 r2 r3 r4 : Action,
    a1 = [r1] /\ a2 = [r1; r2] /\ a3 = [r1; r2; r3] /\
    a4 = [r1; r2; r3; r4] /\
    forallb (fun r => is_severity (kind r)) a4 = true.

(** The cut points in the spec's words: turbidity >= 900 "bad", >= 300
    "warn", else "ok"; pH outside [6.5, 8.5] "warn"; failed compliance
    "bad"; risk >= 0.66 "bad", >= 0.33 "warn". *)
Definition spec_turbidity_kind (turbidity : num) : string :=
  if nge turbidity (Fin 900) then "bad"
  else if nge turbidity (Fin 300) then "warn" else "ok".

Definition spec_ph_kind (ph : num) : string :=
  if nlt ph (Fin 6.5) || ngt ph (Fin 8.5) then "warn" else "ok".

Definition spec_compliance_kind (c : Compliance) : string :=
  if pbPass c && asPass c then "ok" else "bad".

Definition spec_risk_kind (risk : num) : string :=
  if nge risk (Fin 0.66) then "bad"
  else if nge risk (Fin 0.33) then "warn" else "ok".

(** The cut points that differ from the spec's: part_003 grades turbidity
    against the drinking-water targets 10 and 5 NTU (strictly above);
    part_004 warns for a pH outside [6.0, 9.0]; App.jsx has two pH levels,
    "bad" outside [5.0, 9.0] and "warn" outside [6.5, 8.5]. *)
Definition part003_turbidity_kind (turbidity : num) : string :=
  if ngt turbidity (Fin 10) then "bad"
  else if ngt turbidity (Fin 5) then "warn" else "ok".

Definition part004_ph_kind (ph : num) : string :=
  if nlt ph (Fin 6.0) || ngt ph (Fin 9.0) then "warn" else "ok".

Definition appjsx_ph_kind (ph : num) : string :=
  if nlt ph (Fin 5.0) || ngt ph (Fin 9.0) then "bad"
  else if nlt ph (Fin 6.5) || ngt ph (Fin 8.5) then "warn" else "ok".

(** Lead and arsenic removal of one page: finite, arsenic exactly [0.05]
    under lead, lead between its floor and the unpenalised base 0.95. *)
Definition removal_linked (pbRemoval asRemoval : num) (floor : Q) : Prop :=
  exists p a : Q,
    pbRemoval = Fin p /\ asRemoval = Fin a /\
    a == p - 0.05 /\ floor <= p <= 0.95.


(** The three places where a page shows the compliance verdict: the flags
    of the prediction, the tag of the third record and the status pill. *)
Definition compliance_verdict (c : Compliance) (kinds : list string)
  (status : string) (pass : bool) : Prop :=
  pbPass c && asPass c = pass /\
  nth 2 kinds ""%string = (if pass then "ok" else "bad")%string /\
  status = (if pass then "ok" else "bad")%string.


(** A risk score of at least [floor] whose record and badge are both
    raised ("warn" or "bad", never "ok"). *)
Definition risk_raised (risk : num) (kinds : list string) (badge : Label)
  (floor : Q) : Prop :=
  num_le (Fin floor) risk /\
  In (nth 3 kinds ""%string) ["warn"; "bad"]%string /\
  In (level badge) ["warn"; "bad"]%string.

(** Every element is related to the next one. *)
Fixpoint chain (R : num -> num -> bool) (l : list num) : bool :=
  match l with
  | x :: (y :: _) as tl => R x y && chain R tl
  | _ => true
  end.

(** The breakthrough percentage that the heuristic trend derives from a
    capacity percentage [cap] at day [day]. *)
Definition breakthrough_of (day cap : Q) : Q :=
  Qmin 0.95 (Qmax 0.05 (0.15 + day / 14 * (1 - cap / 100))) * 100.

(** Rank of a severity tag: "ok" below "warn" below anything else. *)
Definition severity (k : string) : nat :=
  if (k =? "ok")%string then 0 else if (k =? "warn")%string then 1 else 2.

(** The path of [linePath] in closed form: a move to the first point, a
    line to each of the others. *)
Definition path_of (data : list Static.TrendPoint) (xKey yKey : string)
  (w h pad : num) (yMin yMax : option num)
  (ps : list Static.TrendPoint) : list Chart.Cmd :=
  let X p := Chart.X data xKey w pad (Chart.prop p xKey) in
  let Y p := Chart.Y data yKey h pad yMin yMax (Chart.prop p yKey) in
  match ps with
  | [] => []
  | p :: rest => Chart.MoveTo (X p) (Y p)
                 :: map (fun q => Chart.LineTo (X q) (Y q)) rest
  end.



(* ================================================================== *)
(** ** Arithmetic of finite numbers *)
(* ================================================================== *)

Lemma fin_toQ (x : num) : isFinite x = true -> x = Fin (toQ x).
Proof. destruct x; simpl; intros H; congruence. Qed.

Lemma Qclamp_bounds (x a b : Q) : a <= b -> a <= Qmin b (Qmax a x) <= b.
Proof.
  intros Hab. split.
  - apply Q.min_glb; [exact Hab | apply Q.le_max_l].
  - apply Q.le_min_l.
Qed.

Lemma Qclamp_mono (x y a b : Q) :
  x <= y -> Qmin b (Qmax a x) <= Qmin b (Qmax a y).
Proof.
  intros Hxy. apply Q.min_le_compat_l, Q.max_le_compat_l, Hxy.
Qed.

Lemma Qclamp_low (x a b : Q) : a <= b -> x <= a -> Qmin b (Qmax a x) == a.
Proof.
  intros Hab Hx. rewrite (Q.max_l a x) by exact Hx. apply Q.min_r, Hab.
Qed.

Lemma Qclamp_high (x a b : Q) : b <= x -> Qmin b (Qmax a x) == b.
Proof.
  intros Hx. apply Q.min_l.
  apply Qle_trans with x; [exact Hx | apply Q.le_max_r].
Qed.

Lemma Qclamp_inside (x a b : Q) : a <= x -> x <= b -> Qmin b (Qmax a x) == x.
Proof.
  intros Ha Hb. rewrite (Q.max_r a x) by exact Ha. apply Q.min_r, Hb.
Qed.

(** A quotient with a positive denominator is an ordinary quotient. *)
Lemma ndiv_fin_pos (a b : Q) : 0 < b -> ndiv (Fin a) (Fin b) = Fin (a / b).
Proof.
  destruct b as [n d]. unfold Qlt. simpl. intros H.
  destruct n; [lia | reflexivity | lia].
Qed.


(** Unfolding databases: the locals of each [predict]. *)
Create HintDb static_defs discriminated.
#[export] Hint Unfold Static.predict Static.turbPenalty Static.pbRemoval
  Static.asRemoval Static.pbOut_ Static.asOut_ Static.foulingFactor_
  Static.totalCapacity_mg_ Static.pb_removed_mg_day Static.as_removed_mg_day
  Static.removed_mg_day_ Static.days_ Static.totalTreatable_L_
  Static.MEDIA_MASS_G Static.CAPACITY_MG_G : static_defs.

Create HintDb capacity_defs discriminated.
#[export] Hint Unfold Capacity.predict Capacity.turbPenalty Capacity.phPenalty
  Capacity.load Capacity.loadPenalty Capacity.pbRemoval0 Capacity.asRemoval0
  Capacity.pbRemoval Capacity.asRemoval Capacity.pbOut_ Capacity.asOut_
  Capacity.limits_ Capacity.pbPass_ Capacity.asPass_ Capacity.foulingFactor_
  Capacity.totalCapacity_mg_ Capacity.pb_in_mg_day Capacity.as_in_mg_day
  Capacity.pb_removed_mg_day Capacity.as_removed_mg_day
  Capacity.total_removed_mg_day_ Capacity.rulDays_ Capacity.totalTreatable_L_
  Capacity.risk0 Capacity.risk_ : capacity_defs.

Create HintDb heur_defs discriminated.
#[export] Hint Unfold HeurCore.result HeurCore.turbPenalty HeurCore.phPenalty
  HeurCore.load HeurCore.loadPenalty HeurCore.pbRemoval0 HeurCore.asRemoval0
  HeurCore.pbRemoval HeurCore.asRemoval HeurCore.pbOut_ HeurCore.asOut_
  HeurCore.risk0 HeurCore.risk_ HeurCore.limits_ HeurCore.pbPass_
  HeurCore.asPass_ HeurCore.stress HeurCore.rulDays_
  Heur001.predict Heur003.predict Heur004.predict : heur_defs.

(** Evaluation of the number operations on finite arguments, leaving the
    rational arithmetic untouched. *)
Ltac js_eval :=
  cbn [nadd nsub nneg nmul ndiv nmax nmin nabs nround clamp
       nle nlt nge ngt num_le num_eq isFinite toQ Qnum
       Static.pbRemovalPct Static.asRemovalPct Static.pbOut Static.asOut
       Static.days Static.totalTreatable_L Static.foulingFactor
       Static.removed_mg_day Static.totalCapacity_mg
       Capacity.pbRemovalPct Capacity.asRemovalPct Capacity.pbOut
       Capacity.asOut Capacity.risk Capacity.rulDays
       Capacity.totalTreatable_L Capacity.totalCapacity_mg
       Capacity.total_removed_mg_day Capacity.foulingFactor
       HeurCore.pbRemovalPct HeurCore.asRemovalPct HeurCore.pbOut
       HeurCore.asOut HeurCore.risk HeurCore.rulDays
       limit_pb limit_as].

(* ================================================================== *)
(** ** Removal fractions *)
(* ================================================================== *)

Lemma Capacity_removal_bounds (pb as_ ph t : Q) :
  exists p a : Q,
    Capacity.pbRemoval (Fin pb) (Fin as_) (Fin ph) (Fin t) = Fin p /\
    Capacity.asRemoval (Fin pb) (Fin as_) (Fin ph) (Fin t) = Fin a /\
    0.55 <= p <= 0.98 /\ 0.50 <= a <= 0.97.
Proof.
  autounfold with capacity_defs. js_eval.
  do 2 eexists. split; [reflexivity |]. split; [reflexivity |].
  split; apply Qclamp_bounds; lra.
Qed.

Lemma Static_removal_bounds (t : Q) :
  exists p a : Q,
    Static.pbRemoval (Fin t) = Fin p /\
    Static.asRemoval (Fin t) = Fin a /\
    0.60 <= p <= 0.98 /\ 0.55 <= a <= 0.97.
Proof.
  autounfold with static_defs. js_eval.
  do 2 eexists. split; [reflexivity |]. split; [reflexivity |].
  split; apply Qclamp_bounds; lra.
Qed.

Lemma Heur_removal_bounds (pb as_ ph t : Q) :
  exists p a : Q,
    HeurCore.pbRemoval (Fin pb) (Fin as_) (Fin ph) (Fin t) = Fin p /\
    HeurCore.asRemoval (Fin pb) (Fin as_) (Fin ph) (Fin t) = Fin a /\
    0.60 <= p <= 0.98 /\ 0.55 <= a <= 0.97.
Proof.
  autounfold with heur_defs. js_eval.
  do 2 eexists. split; [reflexivity |]. split; [reflexivity |].
  split; apply Qclamp_bounds; lra.
Qed.

(** C1.  For every sample of finite readings (whatever their sign), the
    removal fractions that [predict] returns (as percentages) stay inside
    the documented bounds: lead in [0.55, 0.98] and arsenic in [0.50, 0.97]
    for the capacity-based pages (App.jsx, and part_005 whose own clamp is
    the tighter [0.60, 0.98] / [0.55, 0.97]); lead in [0.60, 0.98] and
    arsenic in [0.55, 0.97] for the heuristic pages. *)
Theorem C1_removal_fractions_bounded :
  forall (pb as_ ph turbidity : Q) (flow mass cap : num),
    (let r := Capacity.predict (Fin pb) (Fin as_) (Fin ph) (Fin turbidity)
                flow mass cap in
     removal_within (Capacity.pbRemovalPct r) (Capacity.asRemovalPct r)
       0.55 0.98 0.50 0.97) /\
    (let r := Static.predict (Fin pb) (Fin as_) (Fin turbidity) flow in
     removal_within (Static.pbRemovalPct r) (Static.asRemovalPct r)
       0.55 0.98 0.50 0.97 /\
     removal_within (Static.pbRemovalPct r) (Static.asRemovalPct r)
       0.60 0.98 0.55 0.97) /\
    (let r := Heur001.predict (Fin pb) (Fin as_) (Fin ph) (Fin turbidity) in
     removal_within (HeurCore.pbRemovalPct r) (HeurCore.asRemovalPct r)
       0.60 0.98 0.55 0.97) /\
    (let r := Heur003.predict (Fin pb) (Fin as_) (Fin ph) (Fin turbidity) in
     removal_within (HeurCore.pbRemovalPct r) (HeurCore.asRemovalPct r)
       0.60 0.98 0.55 0.97) /\
    (let r := Heur004.predict (Fin pb) (Fin as_) (Fin ph) (Fin turbidity) in
     removal_within (HeurCore.pbRemovalPct r) (HeurCore.asRemovalPct r)
       0.60 0.98 0.55 0.97).
Proof.
  intros pb as_ ph t flow mass cap.
  destruct (Capacity_removal_bounds pb as_ ph t)
    as (p & a & Hp & Ha & Bp & Ba).
  destruct (Static_removal_bounds t) as (p' & a' & Hp' & Ha' & Bp' & Ba').
  destruct (Heur_removal_bounds pb as_ ph t)
    as (p'' & a'' & Hp'' & Ha'' & Bp'' & Ba'').
  assert (Hheur : removal_within
            (nmul (HeurCore.pbRemoval (Fin pb) (Fin as_) (Fin ph) (Fin t))
                  (Fin 100))
            (nmul (HeurCore.asRemoval (Fin pb) (Fin as_) (Fin ph) (Fin t))
                  (Fin 100))
            0.60 0.98 0.55 0.97).
  { exists p'', a''. rewrite Hp'', Ha''. repeat split; tauto. }
  repeat apply conj; cbv zeta.
  - exists p, a. cbn [Capacity.predict Capacity.pbRemovalPct
                      Capacity.asRemovalPct].
    rewrite Hp, Ha. repeat split; tauto.
  - exists p', a'. cbn [Static.predict Static.pbRemovalPct
                        Static.asRemovalPct].
    rewrite Hp', Ha'. repeat split; try reflexivity; lra.
  - exists p', a'. cbn [Static.predict Static.pbRemovalPct
                        Static.asRemovalPct].
    rewrite Hp', Ha'. repeat split; tauto.
  - exact Hheur.
  - exact Hheur.
  - exact Hheur.
Qed.


(* ================================================================== *)
(** ** Risk score *)
(* ================================================================== *)

(** Records the bounds of every clamp met in the goal. *)
Ltac clamp_facts :=
  repeat match goal with
  | |- context [Qmin ?b (Qmax ?a ?x)] =>
      lazymatch goal with
      | _ : a <= Qmin b (Qmax a x) <= b |- _ => fail
      | _ => pose proof (@Qclamp_bounds x a b ltac:(lra))
      end
  end.

Lemma risk_floor_idle_intro (pre base : Q) :
  0.05 <= base -> base <= 0.95 -> base <= pre ->
  risk_floor_idle (Fin pre) (clamp (Fin pre) (Fin 0.05) (Fin 0.95)) base.
Proof.
  intros Hb Hb' Hpre. exists pre. js_eval.
  assert (Hmax : Qmax 0.05 pre == pre) by (apply Q.max_r; lra).
  repeat split; try lra.
  - rewrite Hmax. reflexivity.
  - apply Qle_bool_iff. rewrite Hmax. apply Q.min_glb; lra.
Qed.

(** C10.  For every sample of finite readings the risk score is at least
    the baseline offset (0.10 in App.jsx, 0.12 in the heuristic pages): the
    sum before the final clamp is the baseline plus clamped terms that are
    never negative, so it is at least 0.05 and the clamp to [0.05, 0.95]
    acts as a plain cap at 0.95. *)
Theorem C10_risk_at_least_baseline :
  forall (pb as_ ph turbidity flow : Q) (mass cap : num),
    risk_floor_idle
      (Capacity.risk0 (Fin pb) (Fin as_) (Fin ph) (Fin turbidity) (Fin flow))
      (Capacity.risk (Capacity.predict (Fin pb) (Fin as_) (Fin ph)
                        (Fin turbidity) (Fin flow) mass cap))
      0.10 /\
    risk_floor_idle
      (HeurCore.risk0 (Fin pb) (Fin as_) (Fin ph) (Fin turbidity))
      (HeurCore.risk (Heur001.predict (Fin pb) (Fin as_) (Fin ph)
                        (Fin turbidity)))
      0.12 /\
    risk_floor_idle
      (HeurCore.risk0 (Fin pb) (Fin as_) (Fin ph) (Fin turbidity))
      (HeurCore.risk (Heur003.predict (Fin pb) (Fin as_) (Fin ph)
                        (Fin turbidity)))
      0.12 /\
    risk_floor_idle
      (HeurCore.risk0 (Fin pb) (Fin as_) (Fin ph) (Fin turbidity))
      (HeurCore.risk (Heur004.predict (Fin pb) (Fin as_) (Fin ph)
                        (Fin turbidity)))
      0.12.
Proof.
  intros pb as_ ph t fl mass cap.
  assert (Hheur : risk_floor_idle
            (HeurCore.risk0 (Fin pb) (Fin as_) (Fin ph) (Fin t))
            (HeurCore.risk_ (Fin pb) (Fin as_) (Fin ph) (Fin t)) 0.12).
  { unfold HeurCore.risk_.
    assert (Hfin : isFinite (HeurCore.risk0 (Fin pb) (Fin as_) (Fin ph)
                               (Fin t)) = true) by reflexivity.
    rewrite (fin_toQ _ Hfin).
    apply risk_floor_idle_intro; try lra.
    autounfold with heur_defs. js_eval. clamp_facts. lra. }
  split; [| repeat split; exact Hheur].
  change (Capacity.risk (Capacity.predict (Fin pb) (Fin as_) (Fin ph)
                           (Fin t) (Fin fl) mass cap))
    with (clamp (Capacity.risk0 (Fin pb) (Fin as_) (Fin ph) (Fin t) (Fin fl))
                (Fin 0.05) (Fin 0.95)).
  assert (Hfin : isFinite (Capacity.risk0 (Fin pb) (Fin as_) (Fin ph)
                             (Fin t) (Fin fl)) = true) by reflexivity.
  rewrite (fin_toQ _ Hfin).
  apply risk_floor_idle_intro; try lra.
  autounfold with capacity_defs. js_eval. clamp_facts. lra.
Qed.

Lemma Qdiv_le_compat (x y c : Q) : 0 < c -> x <= y -> x / c <= y / c.
Proof.
  intros Hc Hxy. unfold Qdiv. apply Qmult_le_compat_r; [exact Hxy |].
  apply Qlt_le_weak, Qinv_lt_0_compat, Hc.
Qed.

Lemma Capacity_risk_mono (pb as_ ph fl t1 t2 : Q) :
  t1 <= t2 ->
  num_le (Capacity.risk_ (Fin pb) (Fin as_) (Fin ph) (Fin t1) (Fin fl))
         (Capacity.risk_ (Fin pb) (Fin as_) (Fin ph) (Fin t2) (Fin fl)).
Proof.
  intros Ht. autounfold with capacity_defs. js_eval.
  apply Qle_bool_iff, Qclamp_mono.
  repeat apply Qplus_le_compat; try apply Qle_refl.
  apply Qclamp_mono, Qdiv_le_compat; lra.
Qed.

Lemma Heur_risk_mono (pb as_ ph t1 t2 : Q) :
  t1 <= t2 ->
  num_le (HeurCore.risk_ (Fin pb) (Fin as_) (Fin ph) (Fin t1))
         (HeurCore.risk_ (Fin pb) (Fin as_) (Fin ph) (Fin t2)).
Proof.
  intros Ht. autounfold with heur_defs. js_eval.
  apply Qle_bool_iff, Qclamp_mono.
  repeat apply Qplus_le_compat; try apply Qle_refl.
  apply Qclamp_mono, Qdiv_le_compat; lra.
Qed.

(** C4.  With lead, arsenic, pH (and, in App.jsx, the daily flow) held
    fixed, the risk score returned by [predict] never decreases when the
    turbidity increases. *)
Theorem C4_risk_monotone_in_turbidity :
  forall (pb as_ ph flow t1 t2 : Q) (mass cap : num),
    t1 <= t2 ->
    num_le
      (Capacity.risk (Capacity.predict (Fin pb) (Fin as_) (Fin ph) (Fin t1)
                        (Fin flow) mass cap))
      (Capacity.risk (Capacity.predict (Fin pb) (Fin as_) (Fin ph) (Fin t2)
                        (Fin flow) mass cap)) /\
    num_le
      (HeurCore.risk (Heur001.predict (Fin pb) (Fin as_) (Fin ph) (Fin t1)))
      (HeurCore.risk (Heur001.predict (Fin pb) (Fin as_) (Fin ph) (Fin t2))) /\
    num_le
      (HeurCore.risk (Heur003.predict (Fin pb) (Fin as_) (Fin ph) (Fin t1)))
      (HeurCore.risk (Heur003.predict (Fin pb) (Fin as_) (Fin ph) (Fin t2))) /\
    num_le
      (HeurCore.risk (Heur004.predict (Fin pb) (Fin as_) (Fin ph) (Fin t1)))
      (HeurCore.risk (Heur004.predict (Fin pb) (Fin as_) (Fin ph) (Fin t2))).
Proof.
  intros pb as_ ph fl t1 t2 mass cap Ht.
  split; [exact (Capacity_risk_mono pb as_ ph fl Ht) |].
  repeat split; exact (Heur_risk_mono pb as_ ph Ht).
Qed.

Lemma C4_risk_monotone_in_turbidity_witness :
  num_le
    (Capacity.risk (Capacity.predict (Fin 0.20) (Fin 1.00) (Fin 6.2)
                      (Fin 300) (Fin 2000) (Fin 3000) (Fin 6)))
    (Capacity.risk (Capacity.predict (Fin 0.20) (Fin 1.00) (Fin 6.2)
                      (Fin 900) (Fin 2000) (Fin 3000) (Fin 6))) /\
  num_le
    (HeurCore.risk (Heur001.predict (Fin 0.20) (Fin 1.00) (Fin 6.2)
                      (Fin 300)))
    (HeurCore.risk (Heur001.predict (Fin 0.20) (Fin 1.00) (Fin 6.2)
                      (Fin 900))) /\
  num_le
    (HeurCore.risk (Heur003.predict (Fin 0.20) (Fin 1.00) (Fin 6.2)
                      (Fin 300)))
    (HeurCore.risk (Heur003.predict (Fin 0.20) (Fin 1.00) (Fin 6.2)
                      (Fin 900))) /\
  num_le
    (HeurCore.risk (Heur004.predict (Fin 0.20) (Fin 1.00) (Fin 6.2)
                      (Fin 300)))
    (HeurCore.risk (Heur004.predict (Fin 0.20) (Fin 1.00) (Fin 6.2)
                      (Fin 900))).
Proof.
  apply (@C4_risk_monotone_in_turbidity 0.20 1.00 6.2 2000 300 900
           (Fin 3000) (Fin 6)).
  unfold Qle; simpl; lia.
Defined.

(* ================================================================== *)
(** ** Remaining life of the capacity-based pages *)
(* ================================================================== *)

Lemma Qmax_eps_pos (x : Q) : 0 < Qmax 1e-9 x.
Proof.
  apply Qlt_le_trans with 1e-9; [reflexivity | apply Q.le_max_l].
Qed.

Lemma Qmult_nonneg_mono (p x y : Q) : 0 <= p -> x <= y -> p * x <= p * y.
Proof.
  intros Hp Hxy. rewrite (Qmult_comm p x), (Qmult_comm p y).
  apply Qmult_le_compat_r; assumption.
Qed.

(** Shape of the life estimate on finite values: a clamped quotient of a
    capacity by a load that the epsilon keeps positive. *)
Lemma life_clamp_fin (C X : Q) :
  clamp (ndiv (Fin C) (Fin (Qmax 1e-9 X))) (Fin 0) (Fin 365)
  = Fin (Qmin 365 (Qmax 0 (C / Qmax 1e-9 X))).
Proof.
  rewrite ndiv_fin_pos by apply Qmax_eps_pos. reflexivity.
Qed.















(* ================================================================== *)
(** ** Trend series *)
(* ================================================================== *)

(** C7.  Every trend builder returns exactly 14 points whose day indices
    are 1, 2, ..., 14 in increasing order, whatever numbers it is given;
    in the capacity-based pages the treated volume of the point of day i is
    min(totalTreatableVolume, i * dailyFlow). *)
Theorem C7_trend_shape :
  forall (rulDays flow total : num) (out : Static.Prediction),
    (let tr := Capacity.makeTrend rulDays flow total in
     List.length tr = 14%nat /\
     map Capacity.day tr = days_1_14 /\
     increasing (map Capacity.day tr) = true /\
     map Capacity.treated tr
       = map (fun i => nmin total (nmul i flow)) days_1_14) /\
    (let tr := Static.trend out flow in
     List.length tr = 14%nat /\
     map Static.day tr = days_1_14 /\
     increasing (map Static.day tr) = true /\
     map Static.treated tr
       = map (fun i => nmin (Static.totalTreatable_L out) (nmul i flow))
             days_1_14) /\
    (let tr := HeurCore.makeTrend rulDays in
     List.length tr = 14%nat /\
     map HeurCore.day tr = days_1_14 /\
     increasing (map HeurCore.day tr) = true /\
     Heur001.makeTrend rulDays = tr /\
     Heur003.makeTrend rulDays = tr /\
     Heur004.makeTrend rulDays = tr).
Proof.
  intros rulDays flow total out. cbv zeta.
  assert (Hc : map Capacity.day (Capacity.makeTrend rulDays flow total)
               = days_1_14) by (vm_compute; reflexivity).
  assert (Hs : map Static.day (Static.trend out flow) = days_1_14)
    by (vm_compute; reflexivity).
  assert (Hh : map HeurCore.day (HeurCore.makeTrend rulDays) = days_1_14)
    by (vm_compute; reflexivity).
  rewrite Hc, Hs, Hh.
  repeat split; reflexivity.
Qed.

Lemma Qnum_zero_iff (x : Q) : Qnum x = 0%Z <-> x == 0.
Proof.
  unfold Qeq. cbn [Qnum Qden]. rewrite Z.mul_1_r, Z.mul_0_l. reflexivity.
Qed.

Lemma ndiv_fin_nz (a b : Q) : ~ b == 0 -> ndiv (Fin a) (Fin b) = Fin (a / b).
Proof.
  intros Hb. cbn [ndiv].
  destruct (Qnum b) eqn:E; try reflexivity.
  exfalso. apply Hb, Qnum_zero_iff, E.
Qed.

Lemma ndiv_fin_zero (a b : Q) :
  b == 0 -> 0 < a -> ndiv (Fin a) (Fin b) = PInf.
Proof.
  intros Hb Ha. cbn [ndiv]. apply Qnum_zero_iff in Hb. rewrite Hb.
  unfold scale_inf. destruct a as [n d]. unfold Qlt in Ha.
  cbn [Qnum Qden] in *. destruct n; try reflexivity; lia.
Qed.

(** The day index built for position [i] of a 14-point series. *)
Lemma day_index_bounds (i : nat) :
  (i < 14)%nat ->
  1 <= inject_Z (Z.of_nat i) + 1 /\ inject_Z (Z.of_nat i) + 1 <= 14.
Proof.
  intros Hi.
  assert (H0 : 0 <= inject_Z (Z.of_nat i))
    by (unfold Qle, inject_Z; cbn [Qnum Qden]; lia).
  assert (H13 : inject_Z (Z.of_nat i) <= 13)
    by (unfold Qle, inject_Z; cbn [Qnum Qden]; lia).
  split; lra.
Qed.

Lemma spec_linear_decay_bounds (span d : Q) :
  0 <= spec_linear_decay span d <= 100.
Proof. apply Qclamp_bounds. lra. Qed.

(** One point of [Capacity.makeTrend]. *)
Lemma Capacity_trend_point (r d : Q) :
  1 <= d -> d <= 14 ->
  exists v : Q,
    clamp
      (nmul (ndiv (nmax (Fin 0)
                     (nmul (nmax (Fin r) (Fin 1e-6))
                           (nsub (Fin 1) (ndiv (Fin d) (Fin 14)))))
                  (nmax (Fin r) (Fin 1e-6)))
            (Fin 100))
      (Fin 0) (Fin 100) = Fin v /\
    0 <= v <= 100 /\ v == spec_linear_decay 14 d.
Proof.
  intros Hd1 Hd14.
  assert (HS : 0 < Qmax r 1e-6).
  { apply Qlt_le_trans with 1e-6; [reflexivity | apply Q.le_max_r]. }
  rewrite (@ndiv_fin_pos d 14) by reflexivity.
  cbn [nmax nmul nsub nadd nneg].
  rewrite ndiv_fin_pos by exact HS. cbn [nmul clamp nmax nmin].
  eexists. split; [reflexivity |].
  assert (Hk : 0 <= 1 + - (d / 14)).
  { assert (d / 14 <= 1) by (apply Qle_shift_div_r; lra). lra. }
  assert (Heq : Qmax 0 (Qmax r 1e-6 * (1 + - (d / 14))) / Qmax r 1e-6 * 100
                == 100 - 100 * d / 14).
  { rewrite Q.max_r by (apply Qmult_le_0_compat; lra).
    field. lra. }
  split; [apply Qclamp_bounds; lra |].
  unfold spec_linear_decay. rewrite Heq. reflexivity.
Qed.

(** One point of [Static.trend]. *)
Lemma Static_trend_point (d : Q) :
  1 <= d -> d <= 14 ->
  exists v : Q,
    nmul (nmax (Fin 0) (nsub (Fin 1) (ndiv (Fin d) (Fin 14)))) (Fin 100)
      = Fin v /\
    0 <= v <= 100 /\ v == spec_linear_decay 14 d.
Proof.
  intros Hd1 Hd14.
  cbn [nmax nmul nsub nadd nneg ndiv Qnum].
  eexists. split; [reflexivity |].
  assert (Hk : 0 <= 1 + - (d / 14)).
  { assert (d / 14 <= 1) by (apply Qle_shift_div_r; lra). lra. }
  assert (Hk' : 0 <= d / 14) by (apply Qle_shift_div_l; lra).
  assert (Heq : Qmax 0 (1 + - (d / 14)) * 100 == 100 - 100 * d / 14).
  { rewrite Q.max_r by exact Hk. field. }
  assert (Hv : 100 * d / 14 == 100 * (d / 14)) by field.
  split; [rewrite Heq, Hv; lra |].
  unfold spec_linear_decay. rewrite Heq. symmetry.
  apply Qclamp_inside; rewrite Hv; lra.
Qed.

(** One point of [HeurCore.makeTrend]. *)
Lemma Heur_trend_point (r d : Q) :
  1 <= d ->
  exists v : Q,
    clamp (nsub (Fin 100)
                (ndiv (nmul (Fin 100) (Fin d)) (nmul (Fin r) (Fin 0.55))))
          (Fin 8) (Fin 100) = Fin v /\
    8 <= v <= 100 /\ v == floored_decay (r * 0.55) d.
Proof.
  intros Hd1. cbn [nmul]. unfold floored_decay.
  destruct (Qeq_bool (r * 0.55) 0) eqn:E.
  - apply Qeq_bool_iff in E.
    rewrite ndiv_fin_zero by (exact E || lra).
    exists (Qmin 100 8). split; [reflexivity |].
    split; [split; discriminate | reflexivity].
  - assert (Hnz : ~ r * 0.55 == 0).
    { intros H. apply Qeq_bool_iff in H. congruence. }
    rewrite ndiv_fin_nz by exact Hnz.
    cbn [nsub nadd nneg clamp nmax nmin].
    eexists. split; [reflexivity |].
    split; [apply Qclamp_bounds; lra | reflexivity].
Qed.

(** C6 as stated fails on the heuristic pages.  For the default sample of
    part_001 [predict] gives a life of 22 days; the trend made from it ends
    on the floor of 8%, where a linear decay to 0% gives 0% over the
    14-point window and about 36% over the 22 days of life.  So the series
    is a clamped linear decay to 0% over neither span. *)
Lemma C6_counterexample_floor :
  let life := HeurCore.rulDays
                (Heur001.predict (Fin 0.20) (Fin 0.05) (Fin 8.0) (Fin 840)) in
  let tr := Heur001.makeTrend life in
  life = Fin 22 /\
  (exists p, In p tr /\ HeurCore.day p = Fin 14 /\
             num_eq (HeurCore.capacity p) (Fin 8) /\
             num_eq (Fin (spec_linear_decay 14 14)) (Fin 0) /\
             num_eq (Fin (spec_linear_decay 22 14)) (Fin (400 # 11))) /\
  ~ (Forall (fun p => trend_point_ok (HeurCore.day p) (HeurCore.capacity p)
                        0 (spec_linear_decay 14)) tr \/
     Forall (fun p => trend_point_ok (HeurCore.day p) (HeurCore.capacity p)
                        0 (spec_linear_decay 22)) tr).
Proof.
  cbv zeta.
  assert (Hlife : HeurCore.rulDays
            (Heur001.predict (Fin 0.20) (Fin 0.05) (Fin 8.0) (Fin 840))
          = Fin 22) by (vm_compute; reflexivity).
  rewrite Hlife.
  set (p := nth 13 (Heur001.makeTrend (Fin 22))
              (HeurCore.Build_TrendPoint NaN NaN NaN)).
  assert (Hin : In p (Heur001.makeTrend (Fin 22)))
    by (vm_compute; do 13 right; left; reflexivity).
  split; [reflexivity |]. split.
  - exists p. split; [exact Hin |]. vm_compute. repeat split.
  - intros [H | H]; rewrite Forall_forall in H;
      destruct (H p Hin) as (d & v & Hd & Hv & _ & He);
      vm_compute in Hd, Hv; injection Hd as <-; injection Hv as <-;
      vm_compute in He; discriminate He.
Qed.

(** C6 (amended).  Every trend has 14 points whose percentage lies in
    [0, 100].  In the capacity-based pages (App.jsx for a finite life,
    part_005 always) the remaining percentage of day d is the linear decay
    from 100% to 0% over the 14-point window, 100 - 100*d/14.  In the
    heuristic pages the capacity of day d is the linear decay
    100 - 100*d/(0.55*rulDays), floored at 8%: it lies in [8, 100] and never
    reaches 0%. *)
Theorem C6_trend_percentages :
  forall (rulDays : Q) (flow total : num) (out : Static.Prediction),
    (let tr := Capacity.makeTrend (Fin rulDays) flow total in
     List.length tr = 14%nat /\
     Forall (fun p => trend_point_ok (Capacity.day p) (Capacity.remaining p)
                        0 (spec_linear_decay 14)) tr) /\
    (let tr := Static.trend out flow in
     List.length tr = 14%nat /\
     Forall (fun p => trend_point_ok (Static.day p) (Static.remaining p)
                        0 (spec_linear_decay 14)) tr) /\
    (let tr := HeurCore.makeTrend (Fin rulDays) in
     List.length tr = 14%nat /\
     Forall (fun p => trend_point_ok (HeurCore.day p) (HeurCore.capacity p)
                        8 (floored_decay (rulDays * 0.55))) tr /\
     Forall (fun p => trend_point_ok (HeurCore.day p) (HeurCore.capacity p)
                        0 (floored_decay (rulDays * 0.55))) tr /\
     Heur001.makeTrend (Fin rulDays) = tr /\
     Heur003.makeTrend (Fin rulDays) = tr /\
     Heur004.makeTrend (Fin rulDays) = tr).
Proof.
  intros r flow total out. cbv zeta.
  assert (Hheur :
    Forall (fun p => trend_point_ok (HeurCore.day p) (HeurCore.capacity p)
                       8 (floored_decay (r * 0.55)))
           (HeurCore.makeTrend (Fin r))).
  { unfold HeurCore.makeTrend, array_from.
    apply Forall_map, Forall_forall. intros i Hi.
    apply in_seq in Hi. destruct (@day_index_bounds i) as [H1 H14]; [lia |].
    cbn [HeurCore.day HeurCore.capacity nadd].
    destruct (@Heur_trend_point r _ H1) as (v & Hv & Hb & He).
    eexists; exists v. split; [reflexivity |]. split; [exact Hv |].
    split; [exact Hb | exact He]. }
  repeat apply conj; try reflexivity.
  - unfold Capacity.makeTrend, array_from.
    apply Forall_map, Forall_forall. intros i Hi.
    apply in_seq in Hi. destruct (@day_index_bounds i) as [H1 H14]; [lia |].
    cbn [Capacity.day Capacity.remaining nadd].
    destruct (@Capacity_trend_point r _ H1 H14) as (v & Hv & Hb & He).
    eexists; exists v. split; [reflexivity |]. split; [exact Hv |].
    split; [exact Hb | exact He].
  - unfold Static.trend, array_from.
    apply Forall_map, Forall_forall. intros i Hi.
    apply in_seq in Hi. destruct (@day_index_bounds i) as [H1 H14]; [lia |].
    cbn [Static.day Static.remaining nadd].
    destruct (@Static_trend_point _ H1 H14) as (v & Hv & Hb & He).
    eexists; exists v. split; [reflexivity |]. split; [exact Hv |].
    split; [exact Hb | exact He].
  - exact Hheur.
  - eapply Forall_impl; [| exact Hheur].
    intros p (d & v & Hd & Hv & Hb & He). exists d, v.
    repeat split; try assumption; lra.
Qed.

(* ================================================================== *)
(** ** Recommendation list *)
(* ================================================================== *)

Ltac split_checks :=
  repeat match goal with
  | |- context [if ?c then _ else _] => destruct c
  end.

Ltac four_pushes_tac :=
  unfold four_pushes, push; split_checks;
  do 4 eexists; cbn [app];
  repeat (split; [reflexivity |]); reflexivity.

Lemma Capacity_four_pushes (pb as_ ph t fl m c : num) :
  four_pushes (Capacity.actions1 t) (Capacity.actions2 ph t)
    (Capacity.actions3 pb as_ ph t)
    (Capacity.actions (Capacity.predict pb as_ ph t fl m c)).
Proof.
  cbn [Capacity.predict Capacity.actions].
  unfold Capacity.actions4, Capacity.actions3, Capacity.actions2,
    Capacity.actions1, Capacity.actions0.
  four_pushes_tac.
Qed.

Lemma Heur001_four_pushes (pb as_ ph t : num) :
  four_pushes (Heur001.actions1 t) (Heur001.actions2 ph t)
    (Heur001.actions3 pb as_ ph t)
    (HeurCore.actions (Heur001.predict pb as_ ph t)).
Proof.
  cbn [Heur001.predict HeurCore.result HeurCore.actions].
  unfold Heur001.actions4, Heur001.actions3, Heur001.actions2,
    Heur001.actions1, Heur001.actions0.
  four_pushes_tac.
Qed.

Lemma Heur003_four_pushes (pb as_ ph t : num) :
  four_pushes (Heur003.actions1 t) (Heur003.actions2 ph t)
    (Heur003.actions3 pb as_ ph t)
    (HeurCore.actions (Heur003.predict pb as_ ph t)).
Proof.
  cbn [Heur003.predict HeurCore.result HeurCore.actions].
  unfold Heur003.actions4, Heur003.actions3, Heur003.actions2,
    Heur003.actions1, Heur003.actions0.
  four_pushes_tac.
Qed.

Lemma Heur004_four_pushes (pb as_ ph t : num) :
  four_pushes (Heur004.actions1 t) (Heur004.actions2 ph t)
    (Heur004.actions3 pb as_ ph t)
    (HeurCore.actions (Heur004.predict pb as_ ph t)).
Proof.
  cbn [Heur004.predict HeurCore.result HeurCore.actions].
  unfold Heur004.actions4, Heur004.actions3, Heur004.actions2,
    Heur004.actions1, Heur004.actions0.
  four_pushes_tac.
Qed.

(** C8.  For every input (any numbers, [NaN] and infinities included)
    [predict] evaluates the turbidity, pH, Pb/As compliance and risk checks
    in this order and each check pushes exactly one record, so the returned
    [actions] list has exactly four records in that order, each tagged "ok",
    "warn" or "bad".  [predict] reads nothing but its arguments: evaluating
    it twice on one input gives the same list, hence the same length, tags
    and order. *)
Theorem C8_actions_four_in_order :
  forall pb as_ ph turbidity flow mass cap : num,
    (let r := Capacity.predict pb as_ ph turbidity flow mass cap in
     let r' := Capacity.predict pb as_ ph turbidity flow mass cap in
     four_pushes (Capacity.actions1 turbidity)
       (Capacity.actions2 ph turbidity)
       (Capacity.actions3 pb as_ ph turbidity) (Capacity.actions r) /\
     List.length (Capacity.actions r) = 4%nat /\
     Capacity.actions r = Capacity.actions r') /\
    (let r := Heur001.predict pb as_ ph turbidity in
     let r' := Heur001.predict pb as_ ph turbidity in
     four_pushes (Heur001.actions1 turbidity) (Heur001.actions2 ph turbidity)
       (Heur001.actions3 pb as_ ph turbidity) (HeurCore.actions r) /\
     List.length (HeurCore.actions r) = 4%nat /\
     HeurCore.actions r = HeurCore.actions r') /\
    (let r := Heur003.predict pb as_ ph turbidity in
     let r' := Heur003.predict pb as_ ph turbidity in
     four_pushes (Heur003.actions1 turbidity) (Heur003.actions2 ph turbidity)
       (Heur003.actions3 pb as_ ph turbidity) (HeurCore.actions r) /\
     List.length (HeurCore.actions r) = 4%nat /\
     HeurCore.actions r = HeurCore.actions r') /\
    (let r := Heur004.predict pb as_ ph turbidity in
     let r' := Heur004.predict pb as_ ph turbidity in
     four_pushes (Heur004.actions1 turbidity) (Heur004.actions2 ph turbidity)
       (Heur004.actions3 pb as_ ph turbidity) (HeurCore.actions r) /\
     List.length (HeurCore.actions r) = 4%nat /\
     HeurCore.actions r = HeurCore.actions r').
Proof.
  intros pb as_ ph t fl m c. cbv zeta.
  pose proof (Capacity_four_pushes pb as_ ph t fl m c) as Hc.
  pose proof (Heur001_four_pushes pb as_ ph t) as H1.
  pose proof (Heur003_four_pushes pb as_ ph t) as H3.
  pose proof (Heur004_four_pushes pb as_ ph t) as H4.
  repeat apply conj; try assumption; try reflexivity.
  - destruct Hc as (? & ? & ? & ? & _ & _ & _ & -> & _). reflexivity.
  - destruct H1 as (? & ? & ? & ? & _ & _ & _ & -> & _). reflexivity.
  - destruct H3 as (? & ? & ? & ? & _ & _ & _ & -> & _). reflexivity.
  - destruct H4 as (? & ? & ? & ? & _ & _ & _ & -> & _). reflexivity.
Qed.

(** C9 as stated fails on three pages.  part_003 at its default sample
    (turbidity 40 NTU) tags the turbidity record "bad" although 40 < 300;
    part_004 at pH 6.2 tags the pH record "ok" although 6.2 < 6.5; App.jsx
    at pH 4 tags the pH record "bad", not "warn". *)
Lemma C9_counterexample_cut_points :
  (let r := Heur003.predict (Fin 0.20) (Fin 0.05) (Fin 8.0) (Fin 40) in
   nth 0 (map kind (HeurCore.actions r)) ""%string = "bad"%string /\
   spec_turbidity_kind (Fin 40) = "ok"%string) /\
  (let r := Heur004.predict (Fin 0.20) (Fin 0.05) (Fin 6.2) (Fin 840) in
   nth 1 (map kind (HeurCore.actions r)) ""%string = "ok"%string /\
   spec_ph_kind (Fin 6.2) = "warn"%string) /\
  (let r := Capacity.predict (Fin 0.20) (Fin 1.00) (Fin 4.0) (Fin 500)
              (Fin 2000) (Fin 3000) (Fin 6) in
   nth 1 (map kind (Capacity.actions r)) ""%string = "bad"%string /\
   spec_ph_kind (Fin 4.0) = "warn"%string).
Proof.
  vm_compute. repeat split.
Qed.

Ltac kinds_tac P A :=
  destruct P, A; cbn [negb orb andb]; split_checks; reflexivity.

(** C9 (amended).  For every input the severity tags of the four records
    are decided by fixed cut points.  part_001 uses the stated ones:
    turbidity >= 900 "bad", >= 300 "warn", else "ok"; pH outside [6.5, 8.5]
    "warn"; failed Pb/As compliance "bad"; risk >= 0.66 "bad", >= 0.33
    "warn".  Each other page differs in one check: part_003 grades
    turbidity > 10 "bad" and > 5 "warn"; part_004 warns for pH outside
    [6.0, 9.0]; App.jsx tags pH outside [5.0, 9.0] "bad" and otherwise pH
    outside [6.5, 8.5] "warn". *)
Theorem C9_severity_cut_points :
  forall pb as_ ph turbidity flow mass cap : num,
    (let r := Heur001.predict pb as_ ph turbidity in
     map kind (HeurCore.actions r)
     = [spec_turbidity_kind turbidity; spec_ph_kind ph;
        spec_compliance_kind (HeurCore.compliance r);
        spec_risk_kind (HeurCore.risk r)]) /\
    (let r := Heur003.predict pb as_ ph turbidity in
     map kind (HeurCore.actions r)
     = [part003_turbidity_kind turbidity; spec_ph_kind ph;
        spec_compliance_kind (HeurCore.compliance r);
        spec_risk_kind (HeurCore.risk r)]) /\
    (let r := Heur004.predict pb as_ ph turbidity in
     map kind (HeurCore.actions r)
     = [spec_turbidity_kind turbidity; part004_ph_kind ph;
        spec_compliance_kind (HeurCore.compliance r);
        spec_risk_kind (HeurCore.risk r)]) /\
    (let r := Capacity.predict pb as_ ph turbidity flow mass cap in
     map kind (Capacity.actions r)
     = [spec_turbidity_kind turbidity; appjsx_ph_kind ph;
        spec_compliance_kind (Capacity.compliance r);
        spec_risk_kind (Capacity.risk r)]).
Proof.
  intros pb as_ ph t fl m c. cbv zeta.
  unfold spec_turbidity_kind, spec_ph_kind, spec_compliance_kind,
    spec_risk_kind, part003_turbidity_kind, part004_ph_kind, appjsx_ph_kind,
    push.
  repeat apply conj.
  - cbn [Heur001.predict HeurCore.result HeurCore.actions HeurCore.compliance
         HeurCore.risk pbPass asPass].
    unfold Heur001.actions4, Heur001.actions3, Heur001.actions2,
      Heur001.actions1, Heur001.actions0, push.
    kinds_tac (HeurCore.pbPass_ pb as_ ph t) (HeurCore.asPass_ pb as_ ph t).
  - cbn [Heur003.predict HeurCore.result HeurCore.actions HeurCore.compliance
         HeurCore.risk pbPass asPass].
    unfold Heur003.actions4, Heur003.actions3, Heur003.actions2,
      Heur003.actions1, Heur003.actions0, push.
    kinds_tac (HeurCore.pbPass_ pb as_ ph t) (HeurCore.asPass_ pb as_ ph t).
  - cbn [Heur004.predict HeurCore.result HeurCore.actions HeurCore.compliance
         HeurCore.risk pbPass asPass].
    unfold Heur004.actions4, Heur004.actions3, Heur004.actions2,
      Heur004.actions1, Heur004.actions0, push.
    kinds_tac (HeurCore.pbPass_ pb as_ ph t) (HeurCore.asPass_ pb as_ ph t).
  - cbn [Capacity.predict Capacity.actions Capacity.compliance Capacity.risk
         pbPass asPass].
    unfold Capacity.actions4, Capacity.actions3, Capacity.actions2,
      Capacity.actions1, Capacity.actions0, push.
    kinds_tac (Capacity.pbPass_ pb as_ ph t) (Capacity.asPass_ pb as_ ph t).
Qed.

(* ================================================================== *)
(** ** More on the removal fractions and the outlet *)
(* ================================================================== *)

(** Two clamps whose inputs and floors differ by the same shift, below
    both ceilings. *)
Lemma Qclamp_shift (x y lo hi lo' hi' s : Q) :
  y == x - s -> lo' == lo - s -> lo <= hi -> lo' <= hi' ->
  x <= hi -> y <= hi' ->
  Qmin hi' (Qmax lo' y) == Qmin hi (Qmax lo x) - s.
Proof.
  intros Hy Hlo Hb Hb' Hx Hy'.
  destruct (Qlt_le_dec x lo) as [Hlt | Hge].
  - rewrite (@Qclamp_low x lo hi) by lra.
    rewrite (@Qclamp_low y lo' hi') by lra. exact Hlo.
  - rewrite (@Qclamp_inside x lo hi) by lra.
    rewrite (@Qclamp_inside y lo' hi') by lra. exact Hy.
Qed.

Lemma Qclamp_below (x lo hi top : Q) :
  lo <= top -> x <= top -> Qmin hi (Qmax lo x) <= top.
Proof.
  intros Hlo Hx. apply Qle_trans with (Qmax lo x); [apply Q.le_min_r |].
  apply Q.max_lub; assumption.
Qed.

Lemma Capacity_removal_linked (pb as_ ph t : Q) :
  removal_linked (Capacity.pbRemoval (Fin pb) (Fin as_) (Fin ph) (Fin t))
                 (Capacity.asRemoval (Fin pb) (Fin as_) (Fin ph) (Fin t))
                 0.55.
Proof.
  unfold removal_linked. autounfold with capacity_defs. js_eval.
  do 2 eexists. split; [reflexivity |]. split; [reflexivity |].
  clamp_facts.
  split; [apply Qclamp_shift; lra |].
  split; [apply Qclamp_bounds; lra | apply Qclamp_below; lra].
Qed.

Lemma Static_removal_linked (t : Q) :
  removal_linked (Static.pbRemoval (Fin t)) (Static.asRemoval (Fin t)) 0.60.
Proof.
  unfold removal_linked. autounfold with static_defs. js_eval.
  do 2 eexists. split; [reflexivity |]. split; [reflexivity |].
  clamp_facts.
  split; [apply Qclamp_shift; lra |].
  split; [apply Qclamp_bounds; lra | apply Qclamp_below; lra].
Qed.

Lemma Heur_removal_linked (pb as_ ph t : Q) :
  removal_linked (HeurCore.pbRemoval (Fin pb) (Fin as_) (Fin ph) (Fin t))
                 (HeurCore.asRemoval (Fin pb) (Fin as_) (Fin ph) (Fin t))
                 0.60.
Proof.
  unfold removal_linked. autounfold with heur_defs. js_eval.
  do 2 eexists. split; [reflexivity |]. split; [reflexivity |].
  clamp_facts.
  split; [apply Qclamp_shift; lra |].
  split; [apply Qclamp_bounds; lra | apply Qclamp_below; lra].
Qed.


(** X2.  The documented ceilings 0.98 and 0.97 are never reached: for all
    finite readings the lead removal is at most 95% and the arsenic removal
    at most 90%, the unpenalised base values. *)
Theorem X2_removal_never_above_base :
  forall (pb as_ ph turbidity : Q) (flow mass cap : num),
    (let r := Capacity.predict (Fin pb) (Fin as_) (Fin ph) (Fin turbidity)
                flow mass cap in
     num_le (Capacity.pbRemovalPct r) (Fin 95) /\
     num_le (Capacity.asRemovalPct r) (Fin 90)) /\
    (let r := Static.predict (Fin pb) (Fin as_) (Fin turbidity) flow in
     num_le (Static.pbRemovalPct r) (Fin 95) /\
     num_le (Static.asRemovalPct r) (Fin 90)) /\
    (let r := Heur001.predict (Fin pb) (Fin as_) (Fin ph) (Fin turbidity) in
     num_le (HeurCore.pbRemovalPct r) (Fin 95) /\
     num_le (HeurCore.asRemovalPct r) (Fin 90)) /\
    (let r := Heur003.predict (Fin pb) (Fin as_) (Fin ph) (Fin turbidity) in
     num_le (HeurCore.pbRemovalPct r) (Fin 95) /\
     num_le (HeurCore.asRemovalPct r) (Fin 90)) /\
    (let r := Heur004.predict (Fin pb) (Fin as_) (Fin ph) (Fin turbidity) in
     num_le (HeurCore.pbRemovalPct r) (Fin 95) /\
     num_le (HeurCore.asRemovalPct r) (Fin 90)).
Proof.
  intros pb as_ ph t flow mass cap. cbv zeta.
  destruct (Capacity_removal_linked pb as_ ph t) as (p & a & Hp & Ha & E & B).
  destruct (Static_removal_linked t) as (p' & a' & Hp' & Ha' & E' & B').
  destruct (Heur_removal_linked pb as_ ph t)
    as (p'' & a'' & Hp'' & Ha'' & E'' & B'').
  cbn [Capacity.predict Capacity.pbRemovalPct Capacity.asRemovalPct
       Static.predict Static.pbRemovalPct Static.asRemovalPct
       Heur001.predict Heur003.predict Heur004.predict HeurCore.result
       HeurCore.pbRemovalPct HeurCore.asRemovalPct].
  rewrite Hp, Ha, Hp', Ha', Hp'', Ha''. js_eval.
  repeat split; apply Qle_bool_iff; lra.
Qed.




(* ================================================================== *)
(** ** Tags of the records, page by page *)
(* ================================================================== *)

Lemma Capacity_action_kinds (pb as_ ph t fl m c : num) :
  let r := Capacity.predict pb as_ ph t fl m c in
  map kind (Capacity.actions r)
  = [spec_turbidity_kind t; appjsx_ph_kind ph;
     spec_compliance_kind (Capacity.compliance r);
     spec_risk_kind (Capacity.risk r)].
Proof.
  cbv zeta.
  unfold spec_turbidity_kind, spec_ph_kind, spec_compliance_kind,
    spec_risk_kind, appjsx_ph_kind.
  cbn [Capacity.predict Capacity.actions Capacity.compliance Capacity.risk
       pbPass asPass].
  unfold Capacity.actions4, Capacity.actions3, Capacity.actions2,
    Capacity.actions1, Capacity.actions0, push.
  kinds_tac (Capacity.pbPass_ pb as_ ph t) (Capacity.asPass_ pb as_ ph t).
Qed.

Lemma Heur001_action_kinds (pb as_ ph t : num) :
  let r := Heur001.predict pb as_ ph t in
  map kind (HeurCore.actions r)
  = [spec_turbidity_kind t; spec_ph_kind ph;
     spec_compliance_kind (HeurCore.compliance r);
     spec_risk_kind (HeurCore.risk r)].
Proof.
  cbv zeta.
  unfold spec_turbidity_kind, spec_ph_kind, spec_compliance_kind,
    spec_risk_kind.
  cbn [Heur001.predict HeurCore.result HeurCore.actions HeurCore.compliance
       HeurCore.risk pbPass asPass].
  unfold Heur001.actions4, Heur001.actions3, Heur001.actions2,
    Heur001.actions1, Heur001.actions0, push.
  kinds_tac (HeurCore.pbPass_ pb as_ ph t) (HeurCore.asPass_ pb as_ ph t).
Qed.

Lemma Heur003_action_kinds (pb as_ ph t : num) :
  let r := Heur003.predict pb as_ ph t in
  map kind (HeurCore.actions r)
  = [part003_turbidity_kind t; spec_ph_kind ph;
     spec_compliance_kind (HeurCore.compliance r);
     spec_risk_kind (HeurCore.risk r)].
Proof.
  cbv zeta.
  unfold part003_turbidity_kind, spec_ph_kind, spec_compliance_kind,
    spec_risk_kind.
  cbn [Heur003.predict HeurCore.result HeurCore.actions HeurCore.compliance
       HeurCore.risk pbPass asPass].
  unfold Heur003.actions4, Heur003.actions3, Heur003.actions2,
    Heur003.actions1, Heur003.actions0, push.
  kinds_tac (HeurCore.pbPass_ pb as_ ph t) (HeurCore.asPass_ pb as_ ph t).
Qed.

Lemma Heur004_action_kinds (pb as_ ph t : num) :
  let r := Heur004.predict pb as_ ph t in
  map kind (HeurCore.actions r)
  = [spec_turbidity_kind t; part004_ph_kind ph;
     spec_compliance_kind (HeurCore.compliance r);
     spec_risk_kind (HeurCore.risk r)].
Proof.
  cbv zeta.
  unfold spec_turbidity_kind, part004_ph_kind, spec_compliance_kind,
    spec_risk_kind.
  cbn [Heur004.predict HeurCore.result HeurCore.actions HeurCore.compliance
       HeurCore.risk pbPass asPass].
  unfold Heur004.actions4, Heur004.actions3, Heur004.actions2,
    Heur004.actions1, Heur004.actions0, push.
  kinds_tac (HeurCore.pbPass_ pb as_ ph t) (HeurCore.asPass_ pb as_ ph t).
Qed.

(** The compliance flags on finite readings, as inequalities on the
    inlet and the removal fractions. *)
Lemma Capacity_compliance_fin (pb as_ ph t : Q) :
  exists p a : Q,
    0.55 <= p <= 0.95 /\ a == p - 0.05 /\
    Capacity.pbPass_ (Fin pb) (Fin as_) (Fin ph) (Fin t)
      = Qle_bool (pb * (1 - p)) 0.01 /\
    Capacity.asPass_ (Fin pb) (Fin as_) (Fin ph) (Fin t)
      = Qle_bool (as_ * (1 - a)) 0.01.
Proof.
  destruct (Capacity_removal_linked pb as_ ph t) as (p & a & Hp & Ha & E & B).
  exists p, a. split; [exact B |]. split; [exact E |].
  unfold Capacity.pbPass_, Capacity.asPass_, Capacity.pbOut_,
    Capacity.asOut_, Capacity.limits_.
  rewrite Hp, Ha. split; reflexivity.
Qed.

Lemma Heur_compliance_fin (pb as_ ph t : Q) :
  exists p a : Q,
    0.60 <= p <= 0.95 /\ a == p - 0.05 /\
    HeurCore.pbPass_ (Fin pb) (Fin as_) (Fin ph) (Fin t)
      = Qle_bool (pb * (1 - p)) 0.01 /\
    HeurCore.asPass_ (Fin pb) (Fin as_) (Fin ph) (Fin t)
      = Qle_bool (as_ * (1 - a)) 0.01.
Proof.
  destruct (Heur_removal_linked pb as_ ph t) as (p & a & Hp & Ha & E & B).
  exists p, a. split; [exact B |]. split; [exact E |].
  unfold HeurCore.pbPass_, HeurCore.asPass_, HeurCore.pbOut_,
    HeurCore.asOut_, HeurCore.limits_.
  rewrite Hp, Ha. split; reflexivity.
Qed.

(** A product of an inlet at most [c] by a share in [0, s] is at most
    [c * s]. *)
Lemma share_small (x k c s : Q) :
  x <= c -> 0 <= c -> 0 <= k -> k <= s -> x * k <= c * s.
Proof.
  intros Hx Hc Hk Hs.
  apply Qle_trans with (c * k).
  - apply Qmult_le_compat_r; assumption.
  - apply Qmult_nonneg_mono; assumption.
Qed.


Lemma compliance_verdict_intro (c : Compliance) (t1 t2 t4 status : string)
  (pass : bool) :
  pbPass c && asPass c = pass ->
  status = (if pbPass c && asPass c then "ok" else "bad")%string ->
  compliance_verdict c [t1; t2; spec_compliance_kind c; t4] status pass.
Proof.
  intros Hp Hs. unfold compliance_verdict, spec_compliance_kind.
  cbn [nth]. rewrite Hs, Hp. repeat split.
Qed.

Lemma Capacity_verdict (pb as_ ph t : Q) (fl m c : num) (pass : bool) :
  Capacity.pbPass_ (Fin pb) (Fin as_) (Fin ph) (Fin t) &&
  Capacity.asPass_ (Fin pb) (Fin as_) (Fin ph) (Fin t) = pass ->
  let r := Capacity.predict (Fin pb) (Fin as_) (Fin ph) (Fin t) fl m c in
  compliance_verdict (Capacity.compliance r) (map kind (Capacity.actions r))
    (CapacityPage.complianceStatus (Fin pb) (Fin as_) (Fin ph) (Fin t)
       fl m c)
    pass.
Proof.
  intros H. cbv zeta. rewrite Capacity_action_kinds.
  apply compliance_verdict_intro; [exact H | reflexivity].
Qed.

Lemma Heur_verdict (pb as_ ph t : Q) (pass : bool) :
  HeurCore.pbPass_ (Fin pb) (Fin as_) (Fin ph) (Fin t) &&
  HeurCore.asPass_ (Fin pb) (Fin as_) (Fin ph) (Fin t) = pass ->
  (let r := Heur001.predict (Fin pb) (Fin as_) (Fin ph) (Fin t) in
   compliance_verdict (HeurCore.compliance r) (map kind (HeurCore.actions r))
     (Page001.complianceStatus (Fin pb) (Fin as_) (Fin ph) (Fin t)) pass) /\
  (let r := Heur003.predict (Fin pb) (Fin as_) (Fin ph) (Fin t) in
   compliance_verdict (HeurCore.compliance r) (map kind (HeurCore.actions r))
     (Page003.complianceStatus (Fin pb) (Fin as_) (Fin ph) (Fin t)) pass) /\
  (let r := Heur004.predict (Fin pb) (Fin as_) (Fin ph) (Fin t) in
   compliance_verdict (HeurCore.compliance r) (map kind (HeurCore.actions r))
     (Page004.complianceStatus (Fin pb) (Fin as_) (Fin ph) (Fin t)) pass).
Proof.
  intros H. cbv zeta.
  rewrite Heur001_action_kinds, Heur003_action_kinds, Heur004_action_kinds.
  split; [| split];
    (apply compliance_verdict_intro; [exact H | reflexivity]).
Qed.

(** X4.  A sample whose inlet lead and arsenic are both at most 0.02 mg/L
    (twice the 0.01 mg/L guideline, negative entries included) always
    passes: both compliance flags hold, the third record is tagged "ok" and
    the compliance pill is "ok", whatever the pH, turbidity and flow. *)
Theorem X4_low_inlet_always_complies :
  forall (pb as_ ph turbidity : Q) (flow mass cap : num),
    pb <= 0.02 -> as_ <= 0.02 ->
    (let r := Capacity.predict (Fin pb) (Fin as_) (Fin ph) (Fin turbidity)
                flow mass cap in
     compliance_verdict (Capacity.compliance r)
       (map kind (Capacity.actions r))
       (CapacityPage.complianceStatus (Fin pb) (Fin as_) (Fin ph)
          (Fin turbidity) flow mass cap) true) /\
    (let r := Heur001.predict (Fin pb) (Fin as_) (Fin ph) (Fin turbidity) in
     compliance_verdict (HeurCore.compliance r)
       (map kind (HeurCore.actions r))
       (Page001.complianceStatus (Fin pb) (Fin as_) (Fin ph) (Fin turbidity))
       true) /\
    (let r := Heur003.predict (Fin pb) (Fin as_) (Fin ph) (Fin turbidity) in
     compliance_verdict (HeurCore.compliance r)
       (map kind (HeurCore.actions r))
       (Page003.complianceStatus (Fin pb) (Fin as_) (Fin ph) (Fin turbidity))
       true) /\
    (let r := Heur004.predict (Fin pb) (Fin as_) (Fin ph) (Fin turbidity) in
     compliance_verdict (HeurCore.compliance r)
       (map kind (HeurCore.actions r))
       (Page004.complianceStatus (Fin pb) (Fin as_) (Fin ph) (Fin turbidity))
       true).
Proof.
  intros pb as_ ph t fl m c Hpb Has. split.
  - apply Capacity_verdict.
    destruct (Capacity_compliance_fin pb as_ ph t)
      as (p & a & B & E & -> & ->).
    apply andb_true_intro; split; apply Qle_bool_iff.
    + apply Qle_trans with (0.02 * 0.45); [| discriminate].
      apply share_small; lra.
    + apply Qle_trans with (0.02 * 0.50); [| discriminate].
      apply share_small; lra.
  - apply Heur_verdict.
    destruct (Heur_compliance_fin pb as_ ph t) as (p & a & B & E & -> & ->).
    apply andb_true_intro; split; apply Qle_bool_iff.
    + apply Qle_trans with (0.02 * 0.40); [| discriminate].
      apply share_small; lra.
    + apply Qle_trans with (0.02 * 0.45); [| discriminate].
      apply share_small; lra.
Qed.

Lemma X4_low_inlet_always_complies_witness :
  compliance_verdict
    (Capacity.compliance
       (Capacity.predict (Fin 0.015) (Fin 0.02) (Fin 6.2) (Fin 500)
          (Fin 2000) (Fin 3000) (Fin 6)))
    (map kind (Capacity.actions
       (Capacity.predict (Fin 0.015) (Fin 0.02) (Fin 6.2) (Fin 500)
          (Fin 2000) (Fin 3000) (Fin 6))))
    (CapacityPage.complianceStatus (Fin 0.015) (Fin 0.02) (Fin 6.2)
       (Fin 500) (Fin 2000) (Fin 3000) (Fin 6))
    true.
Proof.
  refine (proj1 (@X4_low_inlet_always_complies 0.015 0.02 6.2 500
                   (Fin 2000) (Fin 3000) (Fin 6) _ _));
    unfold Qle; simpl; lia.
Defined.



(* ================================================================== *)
(** ** More on the capacity-based life *)
(* ================================================================== *)

Lemma fouling_fin (t : Q) :
  exists f f' : Q,
    Capacity.foulingFactor_ (Fin t) = Fin f /\
    Static.foulingFactor_ (Fin t) = Fin f' /\ f' == f /\
    f == Qmin 1 (Qmax 0.35 (1 - 0.60 * Qmin 1.5 (Qmax 0 (t / 1000)))) /\
    0.35 <= f <= 1.
Proof.
  unfold Capacity.foulingFactor_, Static.foulingFactor_. js_eval.
  do 2 eexists. split; [reflexivity |]. split; [reflexivity |].
  assert (E : Qmin 1.0 (Qmax 0.35
                (1.0 + - (0.60 * Qmin 1.5 (Qmax 0 (t / 1000)))))
              == Qmin 1 (Qmax 0.35
                (1 - 0.60 * Qmin 1.5 (Qmax 0 (t / 1000))))).
  { apply Q.min_compat; [reflexivity |].
    apply Q.max_compat; [reflexivity |]. lra. }
  assert (E' : Qmin 1.0 (Qmax 0.35
                (1 + - (0.60 * Qmin 1.5 (Qmax 0 (t / 1000)))))
              == Qmin 1 (Qmax 0.35
                (1 - 0.60 * Qmin 1.5 (Qmax 0 (t / 1000))))).
  { apply Q.min_compat; [reflexivity |].
    apply Q.max_compat; [reflexivity |]. lra. }
  split; [rewrite E, E'; reflexivity |]. split; [exact E |].
  pose proof (@Qclamp_bounds (1.0 + - (0.60 * Qmin 1.5 (Qmax 0 (t / 1000))))
                0.35 1.0 ltac:(lra)) as H.
  lra.
Qed.

(** X6.  The fouling factor returned by the capacity-based pages lies in
    [0.35, 1] and never increases with turbidity; it is 1 (no fouling) for
    a turbidity of 0 NTU or less, 0.40 at 1000 NTU and on its floor 0.35
    from 1084 NTU on. *)
Theorem X6_fouling_factor_profile :
  forall (pb as_ ph flow mass cap : num) (t1 t2 : Q),
    t1 <= t2 ->
    exists f1 f2 : Q,
      num_eq (Capacity.foulingFactor
                (Capacity.predict pb as_ ph (Fin t1) flow mass cap))
             (Fin f1) /\
      num_eq (Capacity.foulingFactor
                (Capacity.predict pb as_ ph (Fin t2) flow mass cap))
             (Fin f2) /\
      num_eq (Static.foulingFactor (Static.predict pb as_ (Fin t1) flow))
             (Fin f1) /\
      num_eq (Static.foulingFactor (Static.predict pb as_ (Fin t2) flow))
             (Fin f2) /\
      0.35 <= f2 /\ f2 <= f1 /\ f1 <= 1 /\
      (t1 <= 0 -> f1 == 1) /\
      (t1 == 1000 -> f1 == 0.40) /\
      (1084 <= t2 -> f2 == 0.35).
Proof.
  intros pb as_ ph flow mass cap t1 t2 Ht.
  destruct (fouling_fin t1) as (f1 & f1' & Hc1 & Hs1 & Ef1 & E1 & B1).
  destruct (fouling_fin t2) as (f2 & f2' & Hc2 & Hs2 & Ef2 & E2 & B2).
  exists f1, f2.
  cbn [Capacity.predict Capacity.foulingFactor Static.predict
       Static.foulingFactor].
  rewrite Hc1, Hc2, Hs1, Hs2. cbn [num_eq].
  split; [reflexivity |]. split; [reflexivity |].
  split; [exact Ef1 |]. split; [exact Ef2 |].
  split; [lra |].
  split; [| split; [lra | split; [| split]]].
  - rewrite E1, E2. apply Qclamp_mono.
    assert (Qmin 1.5 (Qmax 0 (t1 / 1000)) <= Qmin 1.5 (Qmax 0 (t2 / 1000)))
      by (apply Qclamp_mono, Qdiv_le_compat; lra).
    lra.
  - intros H0. rewrite E1.
    assert (Hz : Qmin 1.5 (Qmax 0 (t1 / 1000)) == 0).
    { apply Qclamp_low; [lra |]. apply Qle_shift_div_r; lra. }
    rewrite Hz. apply Qclamp_high. lra.
  - intros H1000. rewrite E1, H1000. reflexivity.
  - intros Hbig. rewrite E2. apply Qclamp_low; [lra |].
    assert (Hq : 1.084 <= t2 / 1000) by (apply Qle_shift_div_l; lra).
    pose proof (@Qclamp_mono 1.084 (t2 / 1000) 0 1.5 Hq) as Hm.
    rewrite (@Qclamp_inside 1.084 0 1.5) in Hm by lra.
    lra.
Qed.

Lemma X6_fouling_factor_profile_witness :
  exists f1 f2 : Q,
    num_eq (Capacity.foulingFactor
              (Capacity.predict (Fin 0.20) (Fin 1.00) (Fin 6.2) (Fin 0)
                 (Fin 2000) (Fin 3000) (Fin 6))) (Fin f1) /\
    num_eq (Capacity.foulingFactor
              (Capacity.predict (Fin 0.20) (Fin 1.00) (Fin 6.2) (Fin 1200)
                 (Fin 2000) (Fin 3000) (Fin 6))) (Fin f2) /\
    f1 == 1 /\ f2 == 0.35.
Proof.
  assert (H : 0 <= 1200) by (unfold Qle; simpl; lia).
  destruct (@X6_fouling_factor_profile (Fin 0.20) (Fin 1.00) (Fin 6.2)
              (Fin 2000) (Fin 3000) (Fin 6) 0 1200 H)
    as (f1 & f2 & H1 & H2 & _ & _ & _ & _ & _ & Hz & _ & Hb).
  exists f1, f2. split; [exact H1 |]. split; [exact H2 |].
  split; [apply Hz | apply Hb]; unfold Qle; simpl; lia.
Defined.







(** X9.  Without media there is no life: when mass times capacity is zero
    or negative, App.jsx returns a usable capacity of 0 mg, a remaining
    life of 0 days and a treatable volume of 0 L (the negative product is
    cut off, not propagated). *)
Theorem X9_no_media_no_life :
  forall pb as_ ph turbidity flow mass cap : Q,
    mass * cap <= 0 ->
    let r := Capacity.predict (Fin pb) (Fin as_) (Fin ph) (Fin turbidity)
               (Fin flow) (Fin mass) (Fin cap) in
    num_eq (Capacity.totalCapacity_mg r) (Fin 0) /\
    num_eq (Capacity.rulDays r) (Fin 0) /\
    num_eq (Capacity.totalTreatable_L r) (Fin 0).
Proof.
  intros pb as_ ph t fl m c Hm. cbv zeta.
  destruct (Capacity_removal_bounds pb as_ ph t)
    as (p & a & Hp & Ha & Bp & Ba).
  destruct (fouling_fin t) as (f & _ & Hf & _ & _ & _ & Bf).
  cbn [Capacity.predict Capacity.rulDays Capacity.totalCapacity_mg
       Capacity.totalTreatable_L].
  unfold Capacity.totalTreatable_L_, Capacity.rulDays_,
    Capacity.total_removed_mg_day_,
    Capacity.pb_removed_mg_day, Capacity.as_removed_mg_day,
    Capacity.totalCapacity_mg_, Capacity.pb_in_mg_day,
    Capacity.as_in_mg_day.
  rewrite Hp, Ha, Hf.
  cbn [nadd nsub nneg nmul nmax].
  rewrite !life_clamp_fin. cbn [nmul num_eq].
  assert (HC : Qmax 0 (m * c * f) == 0).
  { apply Q.max_l. setoid_replace 0 with (0 * f) by ring.
    apply Qmult_le_compat_r; lra. }
  assert (Hd : Qmin 365 (Qmax 0 (Qmax 0 (m * c * f) /
      Qmax 1e-9 (Qmax 0 (pb * fl) * p + Qmax 0 (as_ * fl) * a))) == 0).
  { rewrite HC. unfold Qdiv. rewrite Qmult_0_l.
    rewrite (Q.max_l 0 0) by apply Qle_refl. apply Q.min_r. lra. }
  split; [exact HC |]. split; [exact Hd |].
  rewrite Hd. ring.
Qed.

Lemma X9_no_media_no_life_witness :
  num_eq
    (Capacity.rulDays (Capacity.predict (Fin 0.20) (Fin 1.00) (Fin 6.2)
       (Fin 500) (Fin 2000) (Fin 0) (Fin 6)))
    (Fin 0).
Proof.
  refine (proj1 (proj2 (@X9_no_media_no_life 0.20 1.00 6.2 500 2000 0 6 _))).
  unfold Qle; simpl; lia.
Defined.

(* ================================================================== *)
(** ** More on the risk score, its label and its record *)
(* ================================================================== *)

Lemma riskLabel_level_fin (q : Q) :
  level (riskLabel (Fin q)) = spec_risk_kind (Fin q).
Proof.
  unfold riskLabel, spec_risk_kind. cbn [nlt nge nle].
  destruct (Qle_bool 0.33 q) eqn:E33; destruct (Qle_bool 0.66 q) eqn:E66;
    cbn [negb level]; try reflexivity.
  apply Qle_bool_iff in E66.
  apply not_true_iff_false in E33. rewrite Qle_bool_iff in E33.
  exfalso. apply E33. lra.
Qed.

Lemma Capacity_risk_fin (pb as_ ph t fl : Q) :
  Capacity.risk_ (Fin pb) (Fin as_) (Fin ph) (Fin t) (Fin fl)
  = Fin (toQ (Capacity.risk_ (Fin pb) (Fin as_) (Fin ph) (Fin t) (Fin fl))).
Proof. apply fin_toQ. reflexivity. Qed.

Lemma Heur_risk_fin (pb as_ ph t : Q) :
  HeurCore.risk_ (Fin pb) (Fin as_) (Fin ph) (Fin t)
  = Fin (toQ (HeurCore.risk_ (Fin pb) (Fin as_) (Fin ph) (Fin t))).
Proof. apply fin_toQ. reflexivity. Qed.

(** X10.  On finite readings the risk badge and the risk record agree in
    every page: the level of [riskLabel(outputs.risk)] is the tag of the
    fourth record, although one is computed with [<] from below and the
    other with [>=] from above. *)
Theorem X10_risk_label_matches_record :
  forall (pb as_ ph turbidity flow : Q) (mass cap : num),
    (level (CapacityPage.risk (Fin pb) (Fin as_) (Fin ph) (Fin turbidity)
              (Fin flow) mass cap)
     = nth 3 (map kind (Capacity.actions
                (Capacity.predict (Fin pb) (Fin as_) (Fin ph)
                   (Fin turbidity) (Fin flow) mass cap))) ""%string) /\
    (level (Page001.risk (Fin pb) (Fin as_) (Fin ph) (Fin turbidity))
     = nth 3 (map kind (HeurCore.actions
                (Heur001.predict (Fin pb) (Fin as_) (Fin ph)
                   (Fin turbidity)))) ""%string) /\
    (level (Page003.risk (Fin pb) (Fin as_) (Fin ph) (Fin turbidity))
     = nth 3 (map kind (HeurCore.actions
                (Heur003.predict (Fin pb) (Fin as_) (Fin ph)
                   (Fin turbidity)))) ""%string) /\
    (level (Page004.risk (Fin pb) (Fin as_) (Fin ph) (Fin turbidity))
     = nth 3 (map kind (HeurCore.actions
                (Heur004.predict (Fin pb) (Fin as_) (Fin ph)
                   (Fin turbidity)))) ""%string).
Proof.
  intros pb as_ ph t fl m c.
  rewrite Capacity_action_kinds, Heur001_action_kinds, Heur003_action_kinds,
    Heur004_action_kinds.
  cbn [nth].
  unfold CapacityPage.risk, CapacityPage.outputs, Page001.risk,
    Page001.outputs, Page003.risk, Page003.outputs, Page004.risk,
    Page004.outputs.
  cbn [Capacity.predict Capacity.risk Heur001.predict Heur003.predict
       Heur004.predict HeurCore.result HeurCore.risk].
  rewrite Capacity_risk_fin, Heur_risk_fin.
  repeat split; apply riskLabel_level_fin.
Qed.

(** The turbidity term of the risk is saturated from 740 NTU on. *)
Lemma risk_turbidity_term_saturated (t : Q) :
  900 <= t -> Qmin 0.45 (Qmax 0 ((t + - (200)) / 1200)) == 0.45.
Proof.
  intros Ht. apply Qclamp_high. apply Qle_shift_div_l; lra.
Qed.

Lemma spec_risk_kind_raised (q : Q) :
  0.33 <= q ->
  spec_risk_kind (Fin q) = "warn"%string \/
  spec_risk_kind (Fin q) = "bad"%string.
Proof.
  intros Hq. unfold spec_risk_kind. cbn [nge nle].
  destruct (Qle_bool 0.66 q); [right; reflexivity |].
  apply Qle_bool_iff in Hq. rewrite Hq. left; reflexivity.
Qed.

Lemma risk_raised_intro (q floor : Q) (t1 t2 t3 : string) :
  0.33 <= floor -> floor <= q ->
  risk_raised (Fin q) [t1; t2; t3; spec_risk_kind (Fin q)]
    (riskLabel (Fin q)) floor.
Proof.
  intros Hf Hq. unfold risk_raised. cbn [nth In].
  rewrite riskLabel_level_fin.
  split; [apply Qle_bool_iff; exact Hq |].
  destruct (@spec_risk_kind_raised q) as [-> | ->]; [lra | |]; tauto.
Qed.

(** X11.  Very high turbidity alone raises the risk: from 900 NTU on
    (where the turbidity record of App.jsx, part_001 and part_004 is "bad")
    the risk score is at least 0.55 in App.jsx and 0.57 in the heuristic
    pages, so the risk record and the risk badge are "warn" or "bad", never
    "ok", whatever the other finite readings. *)
Theorem X11_high_turbidity_raises_risk :
  forall (pb as_ ph turbidity flow : Q) (mass cap : num),
    900 <= turbidity ->
    (let r := Capacity.predict (Fin pb) (Fin as_) (Fin ph) (Fin turbidity)
                (Fin flow) mass cap in
     risk_raised (Capacity.risk r) (map kind (Capacity.actions r))
       (CapacityPage.risk (Fin pb) (Fin as_) (Fin ph) (Fin turbidity)
          (Fin flow) mass cap) 0.55) /\
    (let r := Heur001.predict (Fin pb) (Fin as_) (Fin ph) (Fin turbidity) in
     risk_raised (HeurCore.risk r) (map kind (HeurCore.actions r))
       (Page001.risk (Fin pb) (Fin as_) (Fin ph) (Fin turbidity)) 0.57) /\
    (let r := Heur003.predict (Fin pb) (Fin as_) (Fin ph) (Fin turbidity) in
     risk_raised (HeurCore.risk r) (map kind (HeurCore.actions r))
       (Page003.risk (Fin pb) (Fin as_) (Fin ph) (Fin turbidity)) 0.57) /\
    (let r := Heur004.predict (Fin pb) (Fin as_) (Fin ph) (Fin turbidity) in
     risk_raised (HeurCore.risk r) (map kind (HeurCore.actions r))
       (Page004.risk (Fin pb) (Fin as_) (Fin ph) (Fin turbidity)) 0.57).
Proof.
  intros pb as_ ph t fl m c Ht. cbv zeta.
  rewrite Capacity_action_kinds, Heur001_action_kinds, Heur003_action_kinds,
    Heur004_action_kinds.
  unfold CapacityPage.risk, CapacityPage.outputs, Page001.risk,
    Page001.outputs, Page003.risk, Page003.outputs, Page004.risk,
    Page004.outputs.
  cbn [Capacity.predict Capacity.risk Heur001.predict Heur003.predict
       Heur004.predict HeurCore.result HeurCore.risk].
  rewrite Capacity_risk_fin, Heur_risk_fin.
  pose proof (risk_turbidity_term_saturated Ht) as Hsat.
  assert (Hc : 0.55 <= toQ (Capacity.risk_ (Fin pb) (Fin as_) (Fin ph)
                              (Fin t) (Fin fl))).
  { autounfold with capacity_defs. js_eval.
    apply Q.min_glb; [lra |].
    apply Qle_trans with (0.10 + Qmin 0.45 (Qmax 0 ((t + - (200)) / 1200)) +
      Qmin 0.25 (Qmax 0 ((pb + as_) / 12.0)) +
      Qmin 0.15 (Qmax 0 (Qabs (ph + - (7.5)) / 7.5)) +
      Qmin 0.15 (Qmax 0 (fl / 8000))); [| apply Q.le_max_r].
    clamp_facts. lra. }
  assert (Hh : 0.57 <= toQ (HeurCore.risk_ (Fin pb) (Fin as_) (Fin ph)
                              (Fin t))).
  { autounfold with heur_defs. js_eval.
    apply Q.min_glb; [lra |].
    apply Qle_trans with (0.12 + Qmin 0.45 (Qmax 0 ((t + - (200)) / 1200)) +
      Qmin 0.35 (Qmax 0 ((pb + as_) / 12.0)) +
      Qmin 0.20 (Qmax 0 (Qabs (ph + - (7.5)) / 7.5))); [| apply Q.le_max_r].
    clamp_facts. lra. }
  split; [| split; [| split]]; apply risk_raised_intro; lra.
Qed.

Lemma X11_high_turbidity_raises_risk_witness :
  risk_raised
    (Capacity.risk (Capacity.predict (Fin 0.001) (Fin 0.001) (Fin 7.5)
       (Fin 950) (Fin 100) (Fin 3000) (Fin 6)))
    (map kind (Capacity.actions (Capacity.predict (Fin 0.001) (Fin 0.001)
       (Fin 7.5) (Fin 950) (Fin 100) (Fin 3000) (Fin 6))))
    (CapacityPage.risk (Fin 0.001) (Fin 0.001) (Fin 7.5) (Fin 950)
       (Fin 100) (Fin 3000) (Fin 6)) 0.55.
Proof.
  refine (proj1 (@X11_high_turbidity_raises_risk 0.001 0.001 7.5 950 100
                   (Fin 3000) (Fin 6) _)).
  unfold Qle; simpl; lia.
Defined.

Lemma Qabs_dev_clamp_mono (ph1 ph2 hi d : Q) :
  0 < d -> Qabs (ph1 - 7.5) <= Qabs (ph2 - 7.5) ->
  Qmin hi (Qmax 0 (Qabs (ph1 + - (7.5)) / d))
  <= Qmin hi (Qmax 0 (Qabs (ph2 + - (7.5)) / d)).
Proof.
  intros Hd H. apply Qclamp_mono, Qdiv_le_compat; [exact Hd | exact H].
Qed.

(** X12.  The risk score is monotone in every reading at once: if lead,
    arsenic, turbidity and (in App.jsx) flow do not decrease and the pH
    does not come closer to 7.5, the risk returned by [predict] does not
    decrease. *)
Theorem X12_risk_monotone_in_all_readings :
  forall (pb1 pb2 as1 as2 ph1 ph2 t1 t2 fl1 fl2 : Q) (mass cap : num),
    pb1 <= pb2 -> as1 <= as2 -> t1 <= t2 -> fl1 <= fl2 ->
    Qabs (ph1 - 7.5) <= Qabs (ph2 - 7.5) ->
    num_le
      (Capacity.risk (Capacity.predict (Fin pb1) (Fin as1) (Fin ph1) (Fin t1)
                        (Fin fl1) mass cap))
      (Capacity.risk (Capacity.predict (Fin pb2) (Fin as2) (Fin ph2) (Fin t2)
                        (Fin fl2) mass cap)) /\
    num_le
      (HeurCore.risk (Heur001.predict (Fin pb1) (Fin as1) (Fin ph1) (Fin t1)))
      (HeurCore.risk (Heur001.predict (Fin pb2) (Fin as2) (Fin ph2) (Fin t2)))
    /\
    num_le
      (HeurCore.risk (Heur003.predict (Fin pb1) (Fin as1) (Fin ph1) (Fin t1)))
      (HeurCore.risk (Heur003.predict (Fin pb2) (Fin as2) (Fin ph2) (Fin t2)))
    /\
    num_le
      (HeurCore.risk (Heur004.predict (Fin pb1) (Fin as1) (Fin ph1) (Fin t1)))
      (HeurCore.risk (Heur004.predict (Fin pb2) (Fin as2) (Fin ph2) (Fin t2))).
Proof.
  intros pb1 pb2 as1 as2 ph1 ph2 t1 t2 fl1 fl2 m c Hpb Has Ht Hfl Hph.
  assert (Hheur :
    num_le (HeurCore.risk_ (Fin pb1) (Fin as1) (Fin ph1) (Fin t1))
           (HeurCore.risk_ (Fin pb2) (Fin as2) (Fin ph2) (Fin t2))).
  { autounfold with heur_defs. js_eval.
    apply Qle_bool_iff, Qclamp_mono.
    repeat apply Qplus_le_compat; try apply Qle_refl.
    - apply Qclamp_mono, Qdiv_le_compat; lra.
    - apply Qclamp_mono, Qdiv_le_compat; lra.
    - apply Qabs_dev_clamp_mono; [lra | exact Hph]. }
  split; [| repeat split; exact Hheur].
  cbn [Capacity.predict Capacity.risk].
  autounfold with capacity_defs. js_eval.
  apply Qle_bool_iff, Qclamp_mono.
  repeat apply Qplus_le_compat; try apply Qle_refl.
  - apply Qclamp_mono, Qdiv_le_compat; lra.
  - apply Qclamp_mono, Qdiv_le_compat; lra.
  - apply Qabs_dev_clamp_mono; [lra | exact Hph].
  - apply Qclamp_mono, Qdiv_le_compat; lra.
Qed.

Lemma X12_risk_monotone_in_all_readings_witness :
  num_le
    (Capacity.risk (Capacity.predict (Fin 0.10) (Fin 0.50) (Fin 7.0)
                      (Fin 300) (Fin 1000) (Fin 3000) (Fin 6)))
    (Capacity.risk (Capacity.predict (Fin 0.20) (Fin 1.00) (Fin 6.2)
                      (Fin 500) (Fin 2000) (Fin 3000) (Fin 6))).
Proof.
  refine (proj1 (@X12_risk_monotone_in_all_readings 0.10 0.20 0.50 1.00
                   7.0 6.2 300 500 1000 2000 (Fin 3000) (Fin 6) _ _ _ _ _));
    vm_compute; discriminate.
Defined.

(* ================================================================== *)
(** ** More on the heuristic life *)
(* ================================================================== *)

(** The heuristic life on finite readings: the rounding of a value [v]
    read off the clamped stress. *)
Lemma Heur_rulDays_fin (pb as_ ph t : Q) :
  exists v : Q,
    HeurCore.rulDays_ (Fin pb) (Fin as_) (Fin ph) (Fin t)
      = Fin (inject_Z (Qfloor (v + (1 # 2)))) /\
    6 <= v <= 30 /\
    v == Qmin 30 (Qmax 3 (30 - 24 *
           (0.45 * Qmin 1 (Qmax 0 (t / 1200)) +
            0.35 * Qmin 1 (Qmax 0 ((pb + as_) / 12.0)) +
            0.20 * Qmin 1 (Qmax 0 (Qabs (ph - 7.5) / 7.5))))).
Proof.
  autounfold with heur_defs. js_eval.
  eexists. split; [reflexivity |]. split; [| reflexivity].
  clamp_facts. split.
  - apply Q.min_glb; [lra |].
    apply Qle_trans with (30 + - (24 *
           (0.45 * Qmin 1 (Qmax 0 (t / 1200)) +
            0.35 * Qmin 1 (Qmax 0 ((pb + as_) / 12.0)) +
            0.20 * Qmin 1 (Qmax 0 (Qabs (ph + - (7.5)) / 7.5)))));
      [lra | apply Q.le_max_r].
  - apply Q.le_min_l.
Qed.

Lemma round_range (v : Q) :
  6 <= v <= 30 -> (6 <= Qfloor (v + (1 # 2)) <= 30)%Z.
Proof.
  intros [Hlo Hhi]. split.
  - change 6%Z with (Qfloor (inject_Z 6)). apply Qfloor_resp_le.
    change (inject_Z 6) with 6. lra.
  - change 30%Z with (Qfloor (61 # 2)). apply Qfloor_resp_le. lra.
Qed.

(** X13.  On finite readings the heuristic life is a whole number of days
    between 6 and 30: the stress is at most 1, so 30 - 24*stress never
    falls under 6 and the documented floor of 3 days is never reached.  In
    particular the divisor [rulDays * 0.55] of the page's trend is never
    zero. *)
Theorem X13_heuristic_life_whole_days :
  forall pb as_ ph turbidity : Q,
    exists z : Z,
      (6 <= z <= 30)%Z /\ ~ inject_Z z * 0.55 == 0 /\
      HeurCore.rulDays (Heur001.predict (Fin pb) (Fin as_) (Fin ph)
                          (Fin turbidity)) = Fin (inject_Z z) /\
      HeurCore.rulDays (Heur003.predict (Fin pb) (Fin as_) (Fin ph)
                          (Fin turbidity)) = Fin (inject_Z z) /\
      HeurCore.rulDays (Heur004.predict (Fin pb) (Fin as_) (Fin ph)
                          (Fin turbidity)) = Fin (inject_Z z).
Proof.
  intros pb as_ ph t.
  destruct (Heur_rulDays_fin pb as_ ph t) as (v & Hv & Bv & _).
  pose proof (round_range Bv) as Hz.
  exists (Qfloor (v + (1 # 2))). split; [exact Hz |]. split.
  - assert (H6 : 6 <= inject_Z (Qfloor (v + (1 # 2)))).
    { change 6 with (inject_Z 6). rewrite <- Zle_Qle. lia. }
    lra.
  - cbn [Heur001.predict Heur003.predict Heur004.predict HeurCore.result
         HeurCore.rulDays].
    repeat split; exact Hv.
Qed.

(** X14.  The heuristic life never increases under a heavier sample: if
    lead, arsenic and turbidity do not decrease and the pH does not come
    closer to 7.5, the life returned by [predict] does not increase. *)
Theorem X14_heuristic_life_antitone :
  forall pb1 pb2 as1 as2 ph1 ph2 t1 t2 : Q,
    pb1 <= pb2 -> as1 <= as2 -> t1 <= t2 ->
    Qabs (ph1 - 7.5) <= Qabs (ph2 - 7.5) ->
    num_le
      (HeurCore.rulDays
         (Heur001.predict (Fin pb2) (Fin as2) (Fin ph2) (Fin t2)))
      (HeurCore.rulDays
         (Heur001.predict (Fin pb1) (Fin as1) (Fin ph1) (Fin t1))) /\
    num_le
      (HeurCore.rulDays
         (Heur003.predict (Fin pb2) (Fin as2) (Fin ph2) (Fin t2)))
      (HeurCore.rulDays
         (Heur003.predict (Fin pb1) (Fin as1) (Fin ph1) (Fin t1))) /\
    num_le
      (HeurCore.rulDays
         (Heur004.predict (Fin pb2) (Fin as2) (Fin ph2) (Fin t2)))
      (HeurCore.rulDays
         (Heur004.predict (Fin pb1) (Fin as1) (Fin ph1) (Fin t1))).
Proof.
  intros pb1 pb2 as1 as2 ph1 ph2 t1 t2 Hpb Has Ht Hph.
  assert (H : num_le
           (HeurCore.rulDays_ (Fin pb2) (Fin as2) (Fin ph2) (Fin t2))
           (HeurCore.rulDays_ (Fin pb1) (Fin as1) (Fin ph1) (Fin t1))).
  { autounfold with heur_defs. js_eval.
    apply Qle_bool_iff. rewrite <- Zle_Qle. apply Qfloor_resp_le.
    apply Qplus_le_compat; [| apply Qle_refl].
    apply Qclamp_mono.
    assert (H1 : Qmin 1 (Qmax 0 (t1 / 1200)) <= Qmin 1 (Qmax 0 (t2 / 1200)))
      by (apply Qclamp_mono, Qdiv_le_compat; lra).
    assert (H2 : Qmin 1 (Qmax 0 ((pb1 + as1) / 12.0))
                 <= Qmin 1 (Qmax 0 ((pb2 + as2) / 12.0)))
      by (apply Qclamp_mono, Qdiv_le_compat; lra).
    assert (H3 : Qmin 1 (Qmax 0 (Qabs (ph1 + - (7.5)) / 7.5))
                 <= Qmin 1 (Qmax 0 (Qabs (ph2 + - (7.5)) / 7.5)))
      by (apply Qabs_dev_clamp_mono; [lra | exact Hph]).
    lra. }
  cbn [Heur001.predict Heur003.predict Heur004.predict HeurCore.result
       HeurCore.rulDays].
  repeat split; exact H.
Qed.

Lemma X14_heuristic_life_antitone_witness :
  num_le
    (HeurCore.rulDays
       (Heur001.predict (Fin 0.20) (Fin 0.05) (Fin 8.0) (Fin 840)))
    (HeurCore.rulDays
       (Heur001.predict (Fin 0.10) (Fin 0.05) (Fin 7.8) (Fin 40))).
Proof.
  refine (proj1 (@X14_heuristic_life_antitone 0.10 0.20 0.05 0.05 7.8 8.0
                   40 840 _ _ _ _));
    vm_compute; discriminate.
Defined.

(* ================================================================== *)
(** ** More on the trend series *)
(* ================================================================== *)

Lemma chain_map_seq (R : num -> num -> bool) (g : nat -> num) (n s : nat) :
  (forall i, (s <= i)%nat -> (S i < s + n)%nat -> R (g i) (g (S i)) = true) ->
  chain R (map g (seq s n)) = true.
Proof.
  revert s. induction n as [| n IH]; intros s H; [reflexivity |].
  destruct n as [| n]; [reflexivity |].
  change (R (g s) (g (S s)) && chain R (map g (seq (S s) (S n))) = true).
  apply andb_true_intro. split.
  - apply H; lia.
  - apply IH. intros i Hs Hi. apply H; lia.
Qed.

Lemma day_index_step (i : nat) :
  inject_Z (Z.of_nat i) + 1 <= inject_Z (Z.of_nat (S i)) + 1.
Proof.
  apply Qplus_le_compat; [| apply Qle_refl].
  rewrite <- Zle_Qle. lia.
Qed.

Lemma day_index_pos (i : nat) : 1 <= inject_Z (Z.of_nat i) + 1.
Proof.
  assert (H0 : 0 <= inject_Z (Z.of_nat i))
    by (change 0 with (inject_Z 0); rewrite <- Zle_Qle; lia).
  lra.
Qed.

Lemma Qdiv_neg_den_nonpos (x s : Q) : 0 <= x -> s < 0 -> x / s <= 0.
Proof.
  intros Hx Hs.
  assert (E : x / s == - (x / - s)) by (field; lra).
  assert (H : 0 <= x / - s) by (apply Qle_shift_div_l; lra).
  lra.
Qed.

Lemma floored_decay_bounds (span d : Q) : 8 <= floored_decay span d <= 100.
Proof.
  unfold floored_decay. destruct (Qeq_bool span 0); [lra |].
  apply Qclamp_bounds. lra.
Qed.

Lemma floored_decay_antitone (span d1 d2 : Q) :
  0 <= d1 -> d1 <= d2 -> floored_decay span d2 <= floored_decay span d1.
Proof.
  intros H0 Hd. unfold floored_decay.
  destruct (Qeq_bool span 0) eqn:E; [apply Qle_refl |].
  assert (Hnz : ~ span == 0).
  { intros H. apply Qeq_bool_iff in H. congruence. }
  destruct (Qlt_le_dec span 0) as [Hneg | Hpos].
  - rewrite (@Qclamp_high (100 - 100 * d2 / span) 8 100).
    + rewrite (@Qclamp_high (100 - 100 * d1 / span) 8 100);
        [apply Qle_refl |].
      pose proof (@Qdiv_neg_den_nonpos (100 * d1) span) as H. lra.
    + pose proof (@Qdiv_neg_den_nonpos (100 * d2) span) as H. lra.
  - assert (Hs : 0 < span).
    { destruct (Qlt_le_dec 0 span) as [H | H]; [exact H |].
      exfalso. apply Hnz. lra. }
    apply Qclamp_mono.
    assert (H : 100 * d1 / span <= 100 * d2 / span)
      by (apply Qdiv_le_compat; lra).
    lra.
Qed.

Lemma breakthrough_of_bounds (d v : Q) :
  0 <= d -> v <= 100 -> 15 <= breakthrough_of d v <= 95.
Proof.
  intros Hd Hv. unfold breakthrough_of.
  assert (Hfrac : 0 <= d / 14) by (apply Qle_shift_div_l; lra).
  assert (Hrest : 0 <= 1 - v / 100).
  { assert (v / 100 <= 1) by (apply Qle_shift_div_r; lra). lra. }
  pose proof (Qmult_le_0_compat _ _ Hfrac Hrest) as Hprod.
  pose proof (@Qclamp_bounds (0.15 + d / 14 * (1 - v / 100)) 0.05 0.95
                ltac:(lra)) as Hb.
  assert (Hlow : 0.15 <= Qmin 0.95 (Qmax 0.05 (0.15 + d / 14 * (1 - v / 100)))).
  { apply Q.min_glb; [lra |].
    apply Qle_trans with (0.15 + d / 14 * (1 - v / 100));
      [lra | apply Q.le_max_r]. }
  lra.
Qed.

Lemma breakthrough_of_mono (d1 d2 v1 v2 : Q) :
  0 <= d1 -> d1 <= d2 -> v2 <= v1 -> v1 <= 100 ->
  breakthrough_of d1 v1 <= breakthrough_of d2 v2.
Proof.
  intros H0 Hd Hv Hv1. unfold breakthrough_of.
  apply Qmult_le_compat_r; [| lra]. apply Qclamp_mono.
  apply Qplus_le_compat; [apply Qle_refl |].
  apply Qmult_le_compat_nonneg.
  - split; [apply Qle_shift_div_l; lra | apply Qdiv_le_compat; lra].
  - assert (H1 : v1 / 100 <= 1) by (apply Qle_shift_div_r; lra).
    assert (H2 : v2 / 100 <= v1 / 100) by (apply Qdiv_le_compat; lra).
    split; lra.
Qed.

Lemma breakthrough_form (d v : Q) :
  Qmin 0.95 (Qmax 0.05 (0.15 + d / 14 * (1.0 + - (v / 100)))) * 100
  == breakthrough_of d v.
Proof.
  unfold breakthrough_of.
  assert (E : 0.15 + d / 14 * (1.0 + - (v / 100))
              == 0.15 + d / 14 * (1 - v / 100)) by ring.
  rewrite E. reflexivity.
Qed.

(** X15.  For every finite life handed to the heuristic [makeTrend], the
    capacity series never rises from one day to the next (it falls
    linearly, then stays on its floor of 8%; for a zero or negative life it
    is constant). *)
Theorem X15_heuristic_capacity_never_rises :
  forall rulDays : Q,
    let tr := HeurCore.makeTrend (Fin rulDays) in
    chain nge (map HeurCore.capacity tr) = true /\
    Heur001.makeTrend (Fin rulDays) = tr /\
    Heur003.makeTrend (Fin rulDays) = tr /\
    Heur004.makeTrend (Fin rulDays) = tr.
Proof.
  intros r. cbv zeta. split; [| repeat split; reflexivity].
  unfold HeurCore.makeTrend, array_from. rewrite map_map.
  apply chain_map_seq. intros i _ _.
  cbn [HeurCore.capacity nadd].
  destruct (@Heur_trend_point r _ (day_index_pos i)) as (v1 & Hv1 & _ & E1).
  destruct (@Heur_trend_point r _ (day_index_pos (S i)))
    as (v2 & Hv2 & _ & E2).
  rewrite Hv1, Hv2. cbn [nge nle]. apply Qle_bool_iff.
  rewrite E1, E2. apply floored_decay_antitone.
  - pose proof (day_index_pos i). lra.
  - apply day_index_step.
Qed.

(** X16.  For every finite life handed to the heuristic [makeTrend], the
    breakthrough percentage of each day lies in [15, 95] (the lower clamp
    bound of 5% is never reached) and the series never falls from one day
    to the next. *)
Theorem X16_heuristic_breakthrough_profile :
  forall rulDays : Q,
    let tr := HeurCore.makeTrend (Fin rulDays) in
    Forall (fun p => exists d v b : Q,
              HeurCore.day p = Fin d /\ HeurCore.capacity p = Fin v /\
              HeurCore.breakthrough p = Fin b /\
              b == breakthrough_of d v /\ 15 <= b <= 95) tr /\
    chain nle (map HeurCore.breakthrough tr) = true.
Proof.
  intros r. cbv zeta. split.
  - unfold HeurCore.makeTrend, array_from.
    apply Forall_map, Forall_forall. intros i _.
    cbn [HeurCore.day HeurCore.capacity HeurCore.breakthrough nadd].
    destruct (@Heur_trend_point r _ (day_index_pos i)) as (v & Hv & B & E).
    rewrite Hv. js_eval.
    do 3 eexists. repeat (split; [reflexivity |]).
    split; [apply breakthrough_form |].
    rewrite breakthrough_form. apply breakthrough_of_bounds.
    + pose proof (day_index_pos i). lra.
    + lra.
  - unfold HeurCore.makeTrend, array_from. rewrite map_map.
    apply chain_map_seq. intros i _ _.
    cbn [HeurCore.breakthrough nadd].
    destruct (@Heur_trend_point r _ (day_index_pos i)) as (v1 & Hv1 & B1 & E1).
    destruct (@Heur_trend_point r _ (day_index_pos (S i)))
      as (v2 & Hv2 & B2 & E2).
    rewrite Hv1, Hv2. js_eval. apply Qle_bool_iff.
    rewrite !breakthrough_form. apply breakthrough_of_mono.
    + pose proof (day_index_pos i). lra.
    + apply day_index_step.
    + rewrite E1, E2. apply floored_decay_antitone.
      * pose proof (day_index_pos i). lra.
      * apply day_index_step.
    + lra.
Qed.




(* ================================================================== *)
(** ** Status pills against recommendation records *)
(* ================================================================== *)

Lemma Qle_bool_false (a b : Q) : Qle_bool a b = false -> b < a.
Proof.
  intros H. apply Qnot_le_lt. intros Hle.
  apply Qle_bool_iff in Hle. congruence.
Qed.

(** Case analysis on the comparisons of a goal, closing the impossible
    combinations by arithmetic. *)
Ltac compare_cases :=
  repeat match goal with
  | |- context [Qle_bool ?a ?b] =>
      let E := fresh "E" in
      destruct (Qle_bool a b) eqn:E;
      [apply Qle_bool_iff in E | apply Qle_bool_false in E]
  end;
  cbn [negb andb orb]; try reflexivity; exfalso; lra.

(** X18.  Where a page grades a reading twice with the same cut points, the
    status pill and the recommendation record agree on every finite
    reading: turbidity and pH in part_003 and part_004, pH in part_001.
    The two gradings are written with opposite comparisons, so they part on
    a reading that is not a number: the turbidity pill of part_003 is then
    "bad" while the record is "ok". *)
Theorem X18_pill_agrees_with_record :
  forall pb as_ ph turbidity : Q,
    (let r := Heur003.predict (Fin pb) (Fin as_) (Fin ph) (Fin turbidity) in
     Page003.turbStatus (Fin turbidity)
       = nth 0 (map kind (HeurCore.actions r)) ""%string /\
     Page003.phStatus (Fin ph)
       = nth 1 (map kind (HeurCore.actions r)) ""%string) /\
    (let r := Heur004.predict (Fin pb) (Fin as_) (Fin ph) (Fin turbidity) in
     Page004.turbStatus (Fin turbidity)
       = nth 0 (map kind (HeurCore.actions r)) ""%string /\
     Page004.phStatus (Fin ph)
       = nth 1 (map kind (HeurCore.actions r)) ""%string) /\
    (let r := Heur001.predict (Fin pb) (Fin as_) (Fin ph) (Fin turbidity) in
     Page001.phStatus (Fin ph)
       = nth 1 (map kind (HeurCore.actions r)) ""%string) /\
    (let r := Heur003.predict (Fin pb) (Fin as_) (Fin ph) NaN in
     Page003.turbStatus NaN = "bad"%string /\
     nth 0 (map kind (HeurCore.actions r)) ""%string = "ok"%string).
Proof.
  intros pb as_ ph t. cbv zeta.
  rewrite !Heur003_action_kinds, Heur004_action_kinds, Heur001_action_kinds.
  cbn [nth].
  unfold Page003.turbStatus, Page003.phStatus, Page004.turbStatus,
    Page004.phStatus, Page001.phStatus, part003_turbidity_kind,
    spec_turbidity_kind, spec_ph_kind, part004_ph_kind.
  cbn [nle nlt nge ngt].
  repeat apply conj; try reflexivity; compare_cases.
Qed.

Lemma severity_le_cases (a b : string) :
  a = "ok"%string \/ b = "bad"%string \/ a = b ->
  (severity a <= severity b)%nat.
Proof.
  intros [-> | [-> | ->]].
  - apply Nat.le_0_l.
  - unfold severity.
    destruct (a =? "ok")%string; [apply Nat.le_0_l |].
    destruct (a =? "warn")%string; cbn; lia.
  - apply Nat.le_refl.
Qed.

(** X19.  In App.jsx and part_001 the turbidity pill grades against the
    drinking-water targets (5 and 10 NTU) and the record against the
    influent cut points (300 and 900 NTU): for every input, a number or
    not, the pill is at least as severe as the record.  In App.jsx the pH
    pill of a finite pH is "ok" exactly when the pH record is "ok". *)
Theorem X19_potable_pill_at_least_as_severe :
  forall pb as_ ph turbidity flow mass cap : num,
    (let r := Capacity.predict pb as_ ph turbidity flow mass cap in
     (severity (nth 0 (map kind (Capacity.actions r)) ""%string)
      <= severity (CapacityPage.turbDrink turbidity))%nat) /\
    (let r := Heur001.predict pb as_ ph turbidity in
     (severity (nth 0 (map kind (HeurCore.actions r)) ""%string)
      <= severity (Page001.turbStatus turbidity))%nat) /\
    (forall q : Q,
       let r := Capacity.predict pb as_ (Fin q) turbidity flow mass cap in
       (CapacityPage.phDrink (Fin q) =? "ok")%string
       = (nth 1 (map kind (Capacity.actions r)) "" =? "ok")%string).
Proof.
  intros pb as_ ph t fl m c. cbv zeta.
  assert (Hsev : (severity (spec_turbidity_kind t)
                  <= severity (if nle t (Fin 5) then "ok"
                               else if nle t (Fin 10) then "warn"
                               else "bad")%string)%nat).
  { apply severity_le_cases. unfold spec_turbidity_kind.
    destruct t as [q | | |]; cbn [nle nge].
    - destruct (Qle_bool 900 q) eqn:E900;
        [apply Qle_bool_iff in E900 | apply Qle_bool_false in E900];
      destruct (Qle_bool 300 q) eqn:E300;
        [apply Qle_bool_iff in E300 | apply Qle_bool_false in E300
        |apply Qle_bool_iff in E300 | apply Qle_bool_false in E300];
      destruct (Qle_bool q 5) eqn:E5;
        try (apply Qle_bool_iff in E5; exfalso; lra);
      destruct (Qle_bool q 10) eqn:E10;
        try (apply Qle_bool_iff in E10; exfalso; lra);
      tauto.
    - tauto.
    - tauto.
    - tauto. }
  split; [| split].
  - rewrite Capacity_action_kinds. exact Hsev.
  - rewrite Heur001_action_kinds. exact Hsev.
  - intros q. rewrite Capacity_action_kinds. cbn [nth].
    unfold CapacityPage.phDrink, appjsx_ph_kind. cbn [nle nlt nge ngt].
    compare_cases.
Qed.

(* ================================================================== *)
(** ** The chart path of part_005 *)
(* ================================================================== *)

Lemma forEach_from_lines (data : list Static.TrendPoint) (xKey yKey : string)
  (w h pad : num) (yMin yMax : option num)
  (ps : list Static.TrendPoint) (i : nat) (d : list Chart.Cmd) :
  Chart.forEach_from data xKey yKey w h pad yMin yMax ps (S i) d
  = d ++ map (fun q =>
              Chart.LineTo (Chart.X data xKey w pad (Chart.prop q xKey))
                (Chart.Y data yKey h pad yMin yMax (Chart.prop q yKey))) ps.
Proof.
  revert i d. induction ps as [| p rest IH]; intros i d; cbn [Chart.forEach_from map].
  - symmetry. apply app_nil_r.
  - rewrite IH. cbn [Nat.eqb]. rewrite <- app_assoc. reflexivity.
Qed.

Lemma forEach_from_path (data : list Static.TrendPoint) (xKey yKey : string)
  (w h pad : num) (yMin yMax : option num) (ps : list Static.TrendPoint) :
  Chart.forEach_from data xKey yKey w h pad yMin yMax ps 0 []
  = path_of data xKey yKey w h pad yMin yMax ps.
Proof.
  unfold path_of. destruct ps as [| p rest]; [reflexivity |].
  cbn [Chart.forEach_from Nat.eqb app].
  rewrite forEach_from_lines. reflexivity.
Qed.

Lemma path_of_length (data : list Static.TrendPoint) (xKey yKey : string)
  (w h pad : num) (yMin yMax : option num) (ps : list Static.TrendPoint) :
  List.length (path_of data xKey yKey w h pad yMin yMax ps) = List.length ps.
Proof.
  unfold path_of. destruct ps as [| p rest]; [reflexivity |].
  cbn [List.length]. rewrite length_map. reflexivity.
Qed.

(** X20.  [linePath] emits exactly one path command per data point, in
    order: a move to the first point and a line to every later one; empty
    data give the empty path.  This holds for any data, keys and sizes. *)
Theorem X20_line_path_closed_form :
  forall (data : list Static.TrendPoint) (xKey yKey : string)
         (w h pad : num) (yMin yMax : option num),
    Chart.linePath data xKey yKey w h pad yMin yMax
      = path_of data xKey yKey w h pad yMin yMax data /\
    List.length (Chart.linePath data xKey yKey w h pad yMin yMax)
      = List.length data.
Proof.
  intros data xKey yKey w h pad yMin yMax.
  unfold Chart.linePath. rewrite forEach_from_path.
  split; [reflexivity | apply path_of_length].
Qed.




























(* ================================================================== *)
(** ** Removal and outlet under dirtier water *)
(* ================================================================== *)

Lemma outlet_mono (x p1 p2 : Q) :
  0 <= x -> p2 <= p1 ->
  nle (nmul (Fin x) (nsub (Fin 1) (Fin p1)))
      (nmul (Fin x) (nsub (Fin 1) (Fin p2))) = true.
Proof.
  intros Hx Hp. cbn [nmul nsub nadd nneg nle]. apply Qle_bool_iff.
  apply Qmult_nonneg_mono; lra.
Qed.

(** X23.  Dirtier water never helps: for a fixed non-negative inlet, if
    the turbidity does not decrease and the pH does not come closer to 7.5,
    the lead and arsenic removal returned by [predict] do not increase and
    the predicted outlet concentrations do not decrease (App.jsx and the
    heuristic pages; part_005 for turbidity). *)
Theorem X23_dirtier_water_never_helps :
  forall (pb as_ ph1 ph2 t1 t2 : Q) (flow mass cap : num),
    0 <= pb -> 0 <= as_ -> t1 <= t2 ->
    Qabs (ph1 - 7.5) <= Qabs (ph2 - 7.5) ->
    (let r1 := Capacity.predict (Fin pb) (Fin as_) (Fin ph1) (Fin t1)
                 flow mass cap in
     let r2 := Capacity.predict (Fin pb) (Fin as_) (Fin ph2) (Fin t2)
                 flow mass cap in
     num_le (Capacity.pbRemovalPct r2) (Capacity.pbRemovalPct r1) /\
     num_le (Capacity.asRemovalPct r2) (Capacity.asRemovalPct r1) /\
     num_le (Capacity.pbOut r1) (Capacity.pbOut r2) /\
     num_le (Capacity.asOut r1) (Capacity.asOut r2)) /\
    (let r1 := Heur001.predict (Fin pb) (Fin as_) (Fin ph1) (Fin t1) in
     let r2 := Heur001.predict (Fin pb) (Fin as_) (Fin ph2) (Fin t2) in
     num_le (HeurCore.pbRemovalPct r2) (HeurCore.pbRemovalPct r1) /\
     num_le (HeurCore.asRemovalPct r2) (HeurCore.asRemovalPct r1) /\
     num_le (HeurCore.pbOut r1) (HeurCore.pbOut r2) /\
     num_le (HeurCore.asOut r1) (HeurCore.asOut r2)) /\
    (let r1 := Static.predict (Fin pb) (Fin as_) (Fin t1) flow in
     let r2 := Static.predict (Fin pb) (Fin as_) (Fin t2) flow in
     num_le (Static.pbRemovalPct r2) (Static.pbRemovalPct r1) /\
     num_le (Static.asRemovalPct r2) (Static.asRemovalPct r1) /\
     num_le (Static.pbOut r1) (Static.pbOut r2) /\
     num_le (Static.asOut r1) (Static.asOut r2)).
Proof.
  intros pb as_ ph1 ph2 t1 t2 flow mass cap Hpb Has Ht Hph. cbv zeta.
  assert (Hturb : forall hi, Qmin hi (Qmax 0 ((t1 + - (50)) / 1200))
                             <= Qmin hi (Qmax 0 ((t2 + - (50)) / 1200))).
  { intros hi. apply Qclamp_mono, Qdiv_le_compat; lra. }
  assert (HpH : Qmin 0.20 (Qmax 0 (Qabs (ph1 + - (7.5)) / 5.0))
                <= Qmin 0.20 (Qmax 0 (Qabs (ph2 + - (7.5)) / 5.0))).
  { apply Qabs_dev_clamp_mono; [lra | exact Hph]. }
  destruct (Capacity_removal_linked pb as_ ph1 t1)
    as (p1 & a1 & Hp1 & Ha1 & E1 & _).
  destruct (Capacity_removal_linked pb as_ ph2 t2)
    as (p2 & a2 & Hp2 & Ha2 & E2 & _).
  destruct (Heur_removal_linked pb as_ ph1 t1)
    as (q1 & b1 & Hq1 & Hb1 & F1 & _).
  destruct (Heur_removal_linked pb as_ ph2 t2)
    as (q2 & b2 & Hq2 & Hb2 & F2 & _).
  destruct (Static_removal_linked t1) as (s1 & c1 & Hs1 & Hc1 & G1 & _).
  destruct (Static_removal_linked t2) as (s2 & c2 & Hs2 & Hc2 & G2 & _).
  assert (Hcap : p2 <= p1).
  { assert (H : num_le
              (Capacity.pbRemoval (Fin pb) (Fin as_) (Fin ph2) (Fin t2))
              (Capacity.pbRemoval (Fin pb) (Fin as_) (Fin ph1) (Fin t1))).
    { autounfold with capacity_defs. js_eval.
      apply Qle_bool_iff, Qclamp_mono. pose proof (Hturb 0.30). lra. }
    rewrite Hp1, Hp2 in H. apply Qle_bool_iff, H. }
  assert (Hheur : q2 <= q1).
  { assert (H : num_le
              (HeurCore.pbRemoval (Fin pb) (Fin as_) (Fin ph2) (Fin t2))
              (HeurCore.pbRemoval (Fin pb) (Fin as_) (Fin ph1) (Fin t1))).
    { autounfold with heur_defs. js_eval.
      apply Qle_bool_iff, Qclamp_mono. pose proof (Hturb 0.30). lra. }
    rewrite Hq1, Hq2 in H. apply Qle_bool_iff, H. }
  assert (Hstat : s2 <= s1).
  { assert (H : num_le (Static.pbRemoval (Fin t2))
                       (Static.pbRemoval (Fin t1))).
    { autounfold with static_defs. js_eval.
      apply Qle_bool_iff, Qclamp_mono. pose proof (Hturb 0.40). lra. }
    rewrite Hs1, Hs2 in H. apply Qle_bool_iff, H. }
  cbn [Capacity.predict Capacity.pbRemovalPct Capacity.asRemovalPct
       Capacity.pbOut Capacity.asOut
       Static.predict Static.pbRemovalPct Static.asRemovalPct
       Static.pbOut Static.asOut
       Heur001.predict HeurCore.result
       HeurCore.pbRemovalPct HeurCore.asRemovalPct HeurCore.pbOut
       HeurCore.asOut].
  unfold Capacity.pbOut_, Capacity.asOut_, Static.pbOut_, Static.asOut_,
    HeurCore.pbOut_, HeurCore.asOut_.
  rewrite Hp1, Ha1, Hp2, Ha2, Hq1, Hb1, Hq2, Hb2, Hs1, Hc1, Hs2, Hc2.
  repeat apply conj;
    try (apply outlet_mono; lra);
    cbn [num_le nle nmul]; apply Qle_bool_iff; lra.
Qed.

Lemma X23_dirtier_water_never_helps_witness :
  num_le
    (Capacity.pbOut (Capacity.predict (Fin 0.20) (Fin 1.00) (Fin 7.0)
       (Fin 100) (Fin 2000) (Fin 3000) (Fin 6)))
    (Capacity.pbOut (Capacity.predict (Fin 0.20) (Fin 1.00) (Fin 6.2)
       (Fin 500) (Fin 2000) (Fin 3000) (Fin 6))).
Proof.
  refine (proj1 (proj2 (proj2 (proj1
    (@X23_dirtier_water_never_helps 0.20 1.00 7.0 6.2 100 500
       (Fin 2000) (Fin 3000) (Fin 6) _ _ _ _)))));
    vm_compute; discriminate.
Defined.
